(** * Shopee category extractor (shopee.py): a shallow embedding

    The script fetches a paginated category catalogue, flattens every
    category's ancestry path into five level columns and hands the rows to
    three sinks.  The embedding follows the source statement by statement:

    - values decoded by [response.json()] are the inductive [json];
    - Python operators used on them ([in], [x[k]], [.get], [len], truth
      value, iteration) are total functions into [result], with the
      exception the interpreter raises made explicit;
    - the effects (HTTP requests, log lines, sleeps, sink writes) are
      recorded in a trace, and the network, pandas and the database are
      an explicit [mundo] the program is run against. *)

From Stdlib Require Import ZArith List String Ascii Bool Lia PrimFloat.
Import ListNotations.

Local Open Scope string_scope.
Local Open Scope Z_scope.
Local Open Scope list_scope.

Set Implicit Arguments.
Set Warnings "-register-all".

(** ** Python values and operators *)

Module Py.

(** What [json.loads] can return.  A dict is kept as an association
    list in insertion order; the first binding of a key is the one a
    lookup sees. *)
Inductive json : Type :=
| JNull
| JBool (b : bool)
| JInt (z : Z)
| JFloat (f : float)
| JStr (s : string)
| JArr (l : list json)
| JObj (kvs : list (string * json)).

Inductive exc : Type :=
| TypeError
| KeyError
| IndexError
| AttributeError
| JSONDecodeError
| RequestException
| OtherError (descr : string).

Inductive result (A : Type) : Type :=
| Ok (a : A)
| Raise (e : exc).
Arguments Raise {A} e.

Definition rbind {A B} (r : result A) (k : A -> result B) : result B :=
  match r with
  | Ok a => k a
  | Raise e => Raise e
  end.

Fixpoint dict_get (kvs : list (string * json)) (k : string) : option json :=
  match kvs with
  | [] => None
  | (k', v) :: rest => if String.eqb k k' then Some v else dict_get rest k
  end.

Definition dict_keys (kvs : list (string * json)) : list string :=
  nodup string_dec (map fst kvs).

Definition eq_str (v : json) (k : string) : bool :=
  match v with
  | JStr s => String.eqb s k
  | _ => false
  end.

Definition substring_in (k s : string) : bool :=
  match index 0 k s with
  | Some _ => true
  | None => false
  end.

(** [k in v] for a string [k]. *)
Definition py_in (k : string) (v : json) : result bool :=
  match v with
  | JObj kvs => Ok (match dict_get kvs k with Some _ => true | None => false end)
  | JArr l => Ok (existsb (fun x => eq_str x k) l)
  | JStr s => Ok (substring_in k s)
  | _ => Raise TypeError
  end.

(** [v[k]] for a string [k]. *)
Definition py_getitem_str (v : json) (k : string) : result json :=
  match v with
  | JObj kvs =>
      match dict_get kvs k with
      | Some x => Ok x
      | None => Raise KeyError
      end
  | _ => Raise TypeError
  end.

(** [v[i]] for a non-negative integer literal [i]. *)
Definition py_getitem_int (v : json) (i : nat) : result json :=
  match v with
  | JArr l =>
      match nth_error l i with
      | Some x => Ok x
      | None => Raise IndexError
      end
  | JStr s =>
      match String.get i s with
      | Some c => Ok (JStr (String c EmptyString))
      | None => Raise IndexError
      end
  | JObj _ => Raise KeyError
  | _ => Raise TypeError
  end.

(** [v.get(k, default)]. *)
Definition py_get (v : json) (k : string) (default : json) : result json :=
  match v with
  | JObj kvs =>
      Ok (match dict_get kvs k with Some x => x | None => default end)
  | _ => Raise AttributeError
  end.

(** [len(v)]. *)
Definition py_len (v : json) : result Z :=
  match v with
  | JArr l => Ok (Z.of_nat (List.length l))
  | JStr s => Ok (Z.of_nat (String.length s))
  | JObj kvs => Ok (Z.of_nat (List.length (dict_keys kvs)))
  | _ => Raise TypeError
  end.

(** Truth value of [v] in a condition. *)
Definition py_bool (v : json) : bool :=
  match v with
  | JNull => false
  | JBool b => b
  | JInt z => negb (z =? 0)
  | JFloat f => negb (PrimFloat.eqb f PrimFloat.zero)
  | JStr s => negb (String.eqb s "")
  | JArr l => match l with [] => false | _ :: _ => true end
  | JObj kvs => match kvs with [] => false | _ :: _ => true end
  end.

Fixpoint chars (s : string) : list json :=
  match s with
  | EmptyString => []
  | String c rest => JStr (String c EmptyString) :: chars rest
  end.

(** The items [for x in v] goes through. *)
Definition py_iter (v : json) : result (list json) :=
  match v with
  | JArr l => Ok l
  | JStr s => Ok (chars s)
  | JObj kvs => Ok (map JStr (dict_keys kvs))
  | _ => Raise TypeError
  end.

(** Numbers as arithmetic sees them.  Of a float only the type is kept:
    the script never gets further with one than [range] refusing it. *)
Inductive numero : Type :=
| NInt (z : Z)
| NFloat.

(** [v + k] for an integer [k]. *)
Definition py_add (v : json) (k : Z) : result numero :=
  match v with
  | JInt z => Ok (NInt (z + k))
  | JBool b => Ok (NInt (Z.b2z b + k))
  | JFloat _ => Ok NFloat
  | _ => Raise TypeError
  end.

Definition num_add (n : numero) (k : Z) : numero :=
  match n with
  | NInt z => NInt (z + k)
  | NFloat => NFloat
  end.

Definition num_sub (n : numero) (k : Z) : numero :=
  match n with
  | NInt z => NInt (z - k)
  | NFloat => NFloat
  end.

(** [n // k] for a positive integer [k]. *)
Definition num_floordiv (n : numero) (k : Z) : numero :=
  match n with
  | NInt z => NInt (z / k)
  | NFloat => NFloat
  end.

(** [range(a, b)] as the list it enumerates. *)
Definition range_Z (a b : Z) : list Z :=
  map (fun k => a + Z.of_nat k) (seq 0 (Z.to_nat (b - a))).

Definition py_range (a : Z) (b : numero) : result (list Z) :=
  match b with
  | NInt z => Ok (range_Z a z)
  | NFloat => Raise TypeError
  end.

End Py.
Import Py.

Declare Scope result_scope.
Delimit Scope result_scope with result.
Notation "x <- c ;; k" := (rbind c (fun x => k))
  (at level 61, c at next level, right associativity) : result_scope.

(** ** Rows, data frames, effects *)

(** The dict built at lines 151-159, in insertion order. *)
Definition registro : Type := list (string * json).

Definition cookies : Type := list (string * string).

(** What [requests.get] returns: the status and what [.json()] does. *)
Record resposta : Type := {
  status_code : Z;
  corpo_json : result json
}.

(** A pandas cell: a value, or the NaN a missing key leaves. *)
Inductive celula : Type :=
| Valor (v : json)
| NaN.

Record DataFrame : Type := {
  columns : list string;
  linhas : list (list (string * celula))
}.

Inductive mensagem : Type :=
| CookiesObtidos
| FalhaObterCookies (status : Z)
| ErroObterCookies (e : exc)
| ErroAcessarAPI (status : Z)
| EstruturaDiferente (data : json)
| TotalItens (total_itens : json)
| TotalPaginas (total_paginas : numero)
| ErroAcessarPagina (pagina status : Z)
| EstruturaDiferentePagina (pagina : Z)
| ErroProcessarItem (e : exc)
| TotalExtraidas (n : nat)
| ErroNaoTratado (e : exc)
| NenhumaCategoria
| DadosSalvosArquivo (nome_arquivo : string)
| TotalRegistros (n : nat)
| CategoriasPrincipais (n : Z)
| Subcategorias (n : Z)
| ErroSalvarCSV (e : exc)
| ErroSalvarExcel (e : exc)
| NenhumaCategoriaPostgres
| DadosSalvosPostgres (tabela : string)
| ErroSalvarPostgres (e : exc)
| Iniciando
| NenhumaExtraida
| Concluido
| ErroSalvarDados.

Inductive evento : Type :=
| GetSessao
| GetApi (c : cookies) (page size : Z)
| Sleep
| ToCsv (nome_arquivo : string) (df : DataFrame)
| ToExcel (nome_arquivo : string) (df : DataFrame)
| ToSql (tabela if_exists : string) (df : DataFrame)
| Log (m : mensagem).

(** Everything outside the script: the two HTTP endpoints, and the pandas
    and database calls whose outcome the script only observes. *)
Record mundo : Type := {
  sessao_get : result (Z * cookies);
  api_get : cookies -> Z -> Z -> result resposta;
  nunique : list celula -> result Z;
  to_csv : string -> DataFrame -> result unit;
  to_excel : string -> DataFrame -> result unit;
  to_sql : string -> string -> DataFrame -> result unit
}.

(** The state a run threads: the list [todas_categorias] (mutated in place,
    so what was appended before an exception is still there in the handler)
    and the trace of effects so far. *)
Record estado : Type := {
  todas_categorias : list registro;
  eventos : list evento
}.

Definition estado_inicial : estado :=
  {| todas_categorias := []; eventos := [] |}.

Module Exec.

Definition M (A : Type) : Type := estado -> result A * estado.

Definition ret {A} (a : A) : M A := fun st => (Ok a, st).

Definition bind {A B} (m : M A) (k : A -> M B) : M B :=
  fun st =>
    match m st with
    | (Ok a, st') => k a st'
    | (Raise e, st') => (Raise e, st')
    end.

(** [try: m except Exception as e: h e]. *)
Definition tentar {A} (m : M A) (h : exc -> M A) : M A :=
  fun st =>
    match m st with
    | (Ok a, st') => (Ok a, st')
    | (Raise e, st') => h e st'
    end.

Definition lift {A} (r : result A) : M A := fun st => (r, st).

Definition emit (ev : evento) : M unit :=
  fun st =>
    (Ok tt, {| todas_categorias := todas_categorias st;
               eventos := eventos st ++ [ev] |}).

Definition log (m : mensagem) : M unit := emit (Log m).

(** [todas_categorias.append(r)]. *)
Definition append (r : registro) : M unit :=
  fun st =>
    (Ok tt, {| todas_categorias := todas_categorias st ++ [r];
               eventos := eventos st |}).

(** [todas_categorias = []]. *)
Definition nova_lista : M unit :=
  fun st => (Ok tt, {| todas_categorias := []; eventos := eventos st |}).

Definition ler_lista : M (list registro) :=
  fun st => (Ok (todas_categorias st), st).

Fixpoint para_cada {A} (l : list A) (f : A -> M unit) : M unit :=
  match l with
  | [] => ret tt
  | x :: rest => bind (f x) (fun _ => para_cada rest f)
  end.

End Exec.
Import Exec.

Declare Scope exec_scope.
Delimit Scope exec_scope with exec.
Notation "x <- c ;; k" := (bind c (fun x => k))
  (at level 61, c at next level, right associativity) : exec_scope.
Notation "c ;; k" := (bind c (fun _ => k))
  (at level 61, right associativity) : exec_scope.

(** ** The Flattener (lines 142-159) *)

(** [path[i]["category_name"] if len(path) > i else ""]. *)
Definition nivel (path : json) (i : nat) : result json :=
  (n <- py_len path ;;
   if Z.of_nat i <? n
   then (no <- py_getitem_int path i ;; py_getitem_str no "category_name")
   else Ok (JStr ""))%result.

(** [imagens[0] if imagens else ""]. *)
Definition primeira_imagem (imagens : json) : result json :=
  if py_bool imagens then py_getitem_int imagens 0 else Ok (JStr "").

(** The body of the inner [try]: the row built from one item, or the
    exception that leaves the [try]. *)
Definition categoria_item (item : json) : result registro :=
  (path <- py_get item "path" (JArr []) ;;
   categoria <- nivel path 0 ;;
   subcategoria <- nivel path 1 ;;
   terceiro_nivel <- nivel path 2 ;;
   quarto_nivel <- nivel path 3 ;;
   quinto_nivel <- nivel path 4 ;;
   id_categoria <- py_get item "category_id" (JStr "") ;;
   imagens <- py_get item "images" (JArr []) ;;
   imagem_categoria <- primeira_imagem imagens ;;
   Ok [ ("categoria", categoria);
        ("subcategoria", subcategoria);
        ("3_nivel_categoria", terceiro_nivel);
        ("4_nivel_categoria", quarto_nivel);
        ("5_nivel_categoria", quinto_nivel);
        ("id_categoria", id_categoria);
        ("imagem_categoria", imagem_categoria) ])%result.

Definition colunas_esperadas : list string :=
  [ "categoria"; "subcategoria"; "3_nivel_categoria";
    "4_nivel_categoria"; "5_nivel_categoria";
    "id_categoria"; "imagem_categoria" ].

Definition colunas_nivel : list string := firstn 5 colunas_esperadas.

Definition tamanho_pagina : Z := 100.

(** ["data" not in data or "global_cats" not in data["data"]]. *)
Definition estrutura_inesperada (data : json) : result bool :=
  (tem_data <- py_in "data" data ;;
   if negb tem_data then Ok true
   else (d <- py_getitem_str data "data" ;;
         tem_cats <- py_in "global_cats" d ;;
         Ok (negb tem_cats)))%result.

(** Lines 109-110, and the [total_paginas + 1] of line 116. *)
Definition ler_total_itens (data : json) : result json :=
  (d <- py_getitem_str data "data" ;; py_get d "total" (JInt 0))%result.

Definition calcular_total_paginas (total_itens : json) : result numero :=
  (s <- py_add total_itens tamanho_pagina ;;
   Ok (num_floordiv (num_sub s 1) tamanho_pagina))%result.

(** ** The script *)

Section Programa.

Variable w : mundo.

Local Open Scope exec_scope.

Definition obter_cookie_sessao : M cookies :=
  tentar
    (emit GetSessao ;;
     resp <- lift (sessao_get w) ;;
     if fst resp =? 200
     then log CookiesObtidos ;; ret (snd resp)
     else log (FalhaObterCookies (fst resp)) ;; ret [])
    (fun e => log (ErroObterCookies e) ;; ret []).

Definition requests_get (c : cookies) (page : Z) : M resposta :=
  emit (GetApi c page tamanho_pagina) ;;
  lift (api_get w c page tamanho_pagina).

(** Lines 140-163: one item, inside its own [try]. *)
Definition processar_item (item : json) : M unit :=
  tentar
    (categoria_item_ <- lift (categoria_item item) ;; append categoria_item_)
    (fun e => log (ErroProcessarItem e)).

(** Lines 138-165: the items of the page held in [data], then the delay. *)
Definition processar_itens (data : json) : M unit :=
  d <- lift (py_getitem_str data "data") ;;
  cats <- lift (py_getitem_str d "global_cats") ;;
  itens <- lift (py_iter cats) ;;
  para_cada itens processar_item ;;
  emit Sleep.

(** One turn of the page loop; the result is [data] as the turn leaves
    it.  A [continue] is the turn ending early. *)
Definition iteracao (c : cookies) (pagina : Z) (data : json) : M json :=
  if 1 <? pagina then
    response <- requests_get c pagina ;;
    if negb (status_code response =? 200)
    then log (ErroAcessarPagina pagina (status_code response)) ;; ret data
    else
      data' <- lift (corpo_json response) ;;
      faltando <- lift (estrutura_inesperada data') ;;
      if faltando
      then log (EstruturaDiferentePagina pagina) ;; ret data'
      else processar_itens data' ;; ret data'
  else processar_itens data ;; ret data.

Fixpoint paginas_loop (c : cookies) (paginas : list Z) (data : json)
  : M unit :=
  match paginas with
  | [] => ret tt
  | pagina :: resto =>
      data' <- iteracao c pagina data ;;
      paginas_loop c resto data'
  end.

(** Lines 85-168, the body of the outer [try]. *)
Definition extrair_corpo (c : cookies) : M (list registro) :=
  response <- requests_get c 1 ;;
  if negb (status_code response =? 200)
  then log (ErroAcessarAPI (status_code response)) ;; ret []
  else
    data <- lift (corpo_json response) ;;
    faltando <- lift (estrutura_inesperada data) ;;
    if faltando
    then log (EstruturaDiferente data) ;; ret []
    else
      total_itens <- lift (ler_total_itens data) ;;
      total_paginas <- lift (calcular_total_paginas total_itens) ;;
      log (TotalItens total_itens) ;;
      log (TotalPaginas total_paginas) ;;
      paginas <- lift (py_range 1 (num_add total_paginas 1)) ;;
      paginas_loop c paginas data ;;
      todas <- ler_lista ;;
      log (TotalExtraidas (List.length todas)) ;;
      ret todas.

Definition extrair_categorias_via_api : M (list registro) :=
  nova_lista ;;
  c <- obter_cookie_sessao ;;
  tentar (extrair_corpo c)
         (fun e => log (ErroNaoTratado e) ;; ler_lista).

End Programa.

(** ** The sinks (lines 174-291) *)

Module Pandas.

Definition tem_coluna (df : DataFrame) (coluna : string) : bool :=
  existsb (String.eqb coluna) (columns df).

Fixpoint celula_de (linha : list (string * celula)) (coluna : string)
  : option celula :=
  match linha with
  | [] => None
  | (c, v) :: rest =>
      if String.eqb coluna c then Some v else celula_de rest coluna
  end.

(** [pd.DataFrame(categorias)] for a list of dicts: the columns are the
    keys in order of first appearance, a key a row lacks gives NaN. *)
Definition pd_DataFrame (categorias : list registro) : DataFrame :=
  let cols := nodup string_dec (flat_map dict_keys categorias) in
  {| columns := cols;
     linhas :=
       map (fun r =>
              map (fun c =>
                     (c, match dict_get r c with
                         | Some v => Valor v
                         | None => NaN
                         end)) cols)
           categorias |}.

(** [df[coluna] = ""] for a column that is not there yet. *)
Definition nova_coluna (df : DataFrame) (coluna : string) : DataFrame :=
  {| columns := columns df ++ [coluna];
     linhas :=
       map (fun l => (l ++ [(coluna, Valor (JStr ""))])%list) (linhas df) |}.

(** Lines 196-198: [if coluna not in df.columns: df[coluna] = ""]. *)
Definition garantir_coluna (df : DataFrame) (coluna : string) : DataFrame :=
  if negb (tem_coluna df coluna) then nova_coluna df coluna else df.

Fixpoint selecionar_linha (linha : list (string * celula))
         (colunas : list string) : result (list (string * celula)) :=
  match colunas with
  | [] => Ok []
  | c :: rest =>
      match celula_de linha c with
      | None => Raise KeyError
      | Some v =>
          (l <- selecionar_linha linha rest ;; Ok ((c, v) :: l))%result
      end
  end.

Fixpoint selecionar_linhas (ls : list (list (string * celula)))
         (colunas : list string)
  : result (list (list (string * celula))) :=
  match ls with
  | [] => Ok []
  | l :: rest =>
      (l' <- selecionar_linha l colunas ;;
       rest' <- selecionar_linhas rest colunas ;;
       Ok (l' :: rest'))%result
  end.

(** [df[colunas]]: the named columns, in that order. *)
Definition selecionar (df : DataFrame) (colunas : list string)
  : result DataFrame :=
  if forallb (tem_coluna df) colunas
  then (ls <- selecionar_linhas (linhas df) colunas ;;
        Ok {| columns := colunas; linhas := ls |})%result
  else Raise KeyError.

(** [df[coluna]] as the list of its cells. *)
Fixpoint serie (ls : list (list (string * celula))) (coluna : string)
  : result (list celula) :=
  match ls with
  | [] => Ok []
  | l :: rest =>
      match celula_de l coluna with
      | None => Raise KeyError
      | Some v => (s <- serie rest coluna ;; Ok (v :: s))%result
      end
  end.

(** Lines 187-201, the same in the three writers. *)
Definition preparar (categorias : list registro) : result DataFrame :=
  let df := pd_DataFrame categorias in
  let df := fold_left garantir_coluna colunas_esperadas df in
  selecionar df colunas_esperadas.

End Pandas.
Import Pandas.

(** [not categorias] for a list. *)
Definition lista_vazia {A} (l : list A) : bool :=
  match l with
  | [] => true
  | _ :: _ => false
  end.

Section Sinks.

Variable w : mundo.

Local Open Scope exec_scope.

Definition salvar_csv (categorias : list registro) (nome_arquivo : string)
  : M bool :=
  tentar
    (if lista_vazia categorias
     then log NenhumaCategoria ;; ret false
     else
       df <- lift (preparar categorias) ;;
       emit (ToCsv nome_arquivo df) ;;
       lift (to_csv w nome_arquivo df) ;;
       log (DadosSalvosArquivo nome_arquivo) ;;
       log (TotalRegistros (List.length (linhas df))) ;;
       cs <- lift (serie (linhas df) "categoria") ;;
       n_cs <- lift (nunique w cs) ;;
       log (CategoriasPrincipais n_cs) ;;
       ss <- lift (serie (linhas df) "subcategoria") ;;
       n_ss <- lift (nunique w ss) ;;
       log (Subcategorias n_ss) ;;
       ret true)
    (fun e => log (ErroSalvarCSV e) ;; ret false).

Definition salvar_excel (categorias : list registro) (nome_arquivo : string)
  : M bool :=
  tentar
    (if lista_vazia categorias
     then log NenhumaCategoria ;; ret false
     else
       df <- lift (preparar categorias) ;;
       emit (ToExcel nome_arquivo df) ;;
       lift (to_excel w nome_arquivo df) ;;
       log (DadosSalvosArquivo nome_arquivo) ;;
       ret true)
    (fun e => log (ErroSalvarExcel e) ;; ret false).

(** Lines 276-286 (the environment variables, [create_engine] and
    [to_sql]) are the single call [to_sql] of the world. *)
Definition salvar_postgres (categorias : list registro)
           (tabela if_exists : string) : M bool :=
  tentar
    (if lista_vazia categorias
     then log NenhumaCategoriaPostgres ;; ret false
     else
       df <- lift (preparar categorias) ;;
       emit (ToSql tabela if_exists df) ;;
       lift (to_sql w tabela if_exists df) ;;
       log (DadosSalvosPostgres tabela) ;;
       ret true)
    (fun e => log (ErroSalvarPostgres e) ;; ret false).

Definition csv_padrao : string := "categorias_shopee_api.csv".
Definition excel_padrao : string := "categorias_shopee_api.xlsx".
Definition tabela_padrao : string := "categorias_shopee".
Definition if_exists_padrao : string := "replace".

Definition main : M bool :=
  log Iniciando ;;
  categorias <- extrair_categorias_via_api w ;;
  if lista_vazia categorias
  then log NenhumaExtraida ;; ret false
  else
    sucesso_csv <- salvar_csv categorias csv_padrao ;;
    sucesso_excel <- salvar_excel categorias excel_padrao ;;
    sucesso_postgres <-
      salvar_postgres categorias tabela_padrao if_exists_padrao ;;
    if sucesso_csv || sucesso_excel || sucesso_postgres
    then log Concluido ;; ret true
    else log ErroSalvarDados ;; ret false.

End Sinks.

(** What a run returns and the trace it leaves, from the empty state. *)
Definition valor {A} (p : result A * estado) : result A := fst p.
Definition rastro {A} (p : result A * estado) : list evento :=
  eventos (snd p).

(** The page parameters of the API requests in a trace, in order. *)
Definition paginas_pedidas (tr : list evento) : list Z :=
  flat_map (fun ev => match ev with GetApi _ p _ => [p] | _ => [] end) tr.

(** ** Concrete inputs used by the examples *)

Module Exemplos.

Definition no (nome : string) : json :=
  JObj [("category_name", JStr nome)].

Definition item_de (id : Z) (nomes imagens : list string) : json :=
  JObj [ ("category_id", JInt id);
         ("path", JArr (map no nomes));
         ("images", JArr (map JStr imagens)) ].

Definition corpo_de (total : Z) (itens : list json) : json :=
  JObj [ ("data", JObj [ ("total", JInt total);
                         ("global_cats", JArr itens) ]) ].

Definition ok200 (corpo : json) : result resposta :=
  Ok {| status_code := 200; corpo_json := Ok corpo |}.

Definition status (s : Z) : result resposta :=
  Ok {| status_code := s; corpo_json := Raise JSONDecodeError |}.

(** A world whose API answers [api page] and whose sinks behave as
    given. *)
Definition mundo_de (api : Z -> result resposta)
           (csv excel sql : result unit) : mundo :=
  {| sessao_get := Ok (200, [("SPC_F", "x")]);
     api_get := fun _ page _ => api page;
     nunique := fun s => Ok (Z.of_nat (List.length s));
     to_csv := fun _ _ => csv;
     to_excel := fun _ _ => excel;
     to_sql := fun _ _ _ => sql |}.

Definition roupas : json := item_de 11 ["Moda"; "Roupas"] ["a.png"].
Definition tenis : json :=
  item_de 12 ["Moda"; "Calcados"; "Tenis"] [].
Definition casa : json := item_de 21 ["Casa"] ["c.png"; "d.png"].

(** An item with no identifier. *)
Definition sem_id : json :=
  JObj [ ("path", JArr [no "Moda"]); ("images", JArr []) ].

(** An item whose second path node has no name. *)
Definition sem_nome : json :=
  JObj [ ("category_id", JInt 13);
         ("path", JArr [no "Moda"; JObj []]) ].

Definition sinks_ok (api : Z -> result resposta) : mundo :=
  mundo_de api (Ok tt) (Ok tt) (Ok tt).

(** 250 items declared, three pages served. *)
Definition tres_paginas : mundo :=
  sinks_ok (fun p =>
    if p =? 1 then ok200 (corpo_de 250 [roupas; tenis])
    else if p =? 2 then ok200 (corpo_de 250 [sem_id])
    else if p =? 3 then ok200 (corpo_de 250 [casa])
    else Raise RequestException).

(** The same, with page 2 answering 500 and only the CSV sink working. *)
Definition pagina2_recusada : mundo :=
  mundo_de (fun p =>
    if p =? 1 then ok200 (corpo_de 250 [roupas; tenis])
    else if p =? 2 then status 500
    else if p =? 3 then ok200 (corpo_de 250 [casa])
    else Raise RequestException)
    (Ok tt) (Raise (OtherError "openpyxl")) (Raise (OtherError "psycopg2")).

(** The same, with page 2 answering 200 and a body without the keys. *)
Definition pagina2_sem_chaves : mundo :=
  sinks_ok (fun p =>
    if p =? 1 then ok200 (corpo_de 250 [roupas; tenis])
    else if p =? 2 then ok200 (JObj [("error", JInt 1)])
    else if p =? 3 then ok200 (corpo_de 250 [casa])
    else Raise RequestException).

(** The first body declares 250 items and has no ["global_cats"]; pages 2
    and 3 would be served. *)
Definition primeira_sem_cats : json :=
  JObj [("data", JObj [("total", JInt 250)])].

Definition primeira_sem_chaves : mundo :=
  sinks_ok (fun p =>
    if p =? 1 then ok200 primeira_sem_cats
    else if p =? 2 then ok200 (corpo_de 250 [sem_id])
    else if p =? 3 then ok200 (corpo_de 250 [casa])
    else Raise RequestException).

(** 250 items declared; page 2 answers 200 with a body that is not
    JSON. *)
Definition pagina2_nao_json : mundo :=
  sinks_ok (fun p =>
    if p =? 1 then ok200 (corpo_de 250 [roupas; tenis])
    else if p =? 2
         then Ok {| status_code := 200;
                    corpo_json := Raise JSONDecodeError |}
    else if p =? 3 then ok200 (corpo_de 250 [casa])
    else Raise RequestException).

(** The first answer is 503. *)
Definition primeira_recusada_503 : mundo :=
  sinks_ok (fun p =>
    if p =? 1 then status 503 else ok200 (corpo_de 250 [casa])).

(** The first body has items and no ["total"]. *)
Definition sem_total : mundo :=
  sinks_ok (fun p =>
    ok200 (JObj [("data", JObj [("global_cats", JArr [roupas; casa])])])).

(** The first request raises. *)
Definition sem_rede : mundo :=
  sinks_ok (fun _ => Raise RequestException).

(** The first body declares a null total. *)
Definition total_nulo : mundo :=
  sinks_ok (fun _ =>
    ok200 (JObj [("data", JObj [ ("total", JNull);
                                 ("global_cats", JArr [roupas]) ])])).

(** The first body declares a negative total. *)
Definition total_negativo : mundo :=
  sinks_ok (fun _ => ok200 (corpo_de (-150) [roupas; casa])).

End Exemplos.

(** ** Vocabulary of the statements *)

(** A path node that carries the name [nome]. *)
Definition no_nomeado (no nome : json) : Prop :=
  exists campos,
    no = JObj campos /\ dict_get campos "category_name" = Some nome.

(** A raw category record as the API documents it: an object whose
    ["path"] (when present) is an array of named nodes and whose
    ["images"] (when present) is an array. *)
Record registro_bruto (item : json) (nos nomes imagens : list json)
  : Prop := {
  rb_path : py_get item "path" (JArr []) = Ok (JArr nos);
  rb_nomes : Forall2 no_nomeado nos nomes;
  rb_images : py_get item "images" (JArr []) = Ok (JArr imagens)
}.

(** The [i]-th level column of a row. *)
Definition campo_nivel (r : registro) (i : nat) : option json :=
  dict_get r (nth i colunas_nivel "").

(** The rows one page's items leave in [todas_categorias]: an item whose
    flattening raises leaves none. *)
Definition registros_de (itens : list json) : list registro :=
  flat_map (fun item =>
              match categoria_item item with
              | Ok r => [r]
              | Raise _ => []
              end) itens.

(** The log lines the same items leave. *)
Definition erros_de (itens : list json) : list evento :=
  flat_map (fun item =>
              match categoria_item item with
              | Ok _ => []
              | Raise e => [Log (ErroProcessarItem e)]
              end) itens.

(** [st] with [evs] added at the end of its trace. *)
Definition acrescenta (st : estado) (evs : list evento) : estado :=
  {| todas_categorias := todas_categorias st;
     eventos := eventos st ++ evs |}.

(** The state the items of a page leave: their rows appended, their error
    lines logged, in item order. *)
Definition apos_itens (st : estado) (itens : list json) : estado :=
  {| todas_categorias := todas_categorias st ++ registros_de itens;
     eventos := eventos st ++ erros_de itens |}.

(** An item is skipped when it leaves [todas_categorias] as it was and one
    error line in the log. *)
Definition item_pulado (item : json) : Prop :=
  forall st, exists e,
    processar_item item st =
      (Ok tt, acrescenta st [Log (ErroProcessarItem e)]).

(** [so_rastro m]: [m] neither reads nor writes [todas_categorias], and what
    it returns and logs does not depend on the trace it starts from. *)
Definition so_rastro {A} (m : M A) : Prop :=
  forall st,
    m st = (fst (m estado_inicial),
            acrescenta st (rastro (m estado_inicial))).

(** [st] with [evs] put before its trace. *)
Definition prefixa (evs : list evento) (st : estado) : estado :=
  {| todas_categorias := todas_categorias st;
     eventos := evs ++ eventos st |}.

(** [alheio m]: [m] treats the trace it starts from as a prefix it only
    extends. *)
Definition alheio {A} (m : M A) : Prop :=
  forall evs st, m (prefixa evs st) = (fst (m st), prefixa evs (snd (m st))).

(** The cookies [obter_cookie_sessao] returns and what it leaves in the
    trace. *)
Definition cookies_de (w : mundo) : cookies :=
  match sessao_get w with
  | Ok (s, c) => if s =? 200 then c else []
  | Raise _ => []
  end.

Definition eventos_sessao (w : mundo) : list evento :=
  GetSessao ::
  match sessao_get w with
  | Ok (s, _) =>
      if s =? 200 then [Log CookiesObtidos] else [Log (FalhaObterCookies s)]
  | Raise e => [Log (ErroObterCookies e)]
  end.

(** The items line 138 and the [for] of line 140 see in a page. *)
Definition itens_de (data : json) : result (list json) :=
  (d <- py_getitem_str data "data" ;;
   cats <- py_getitem_str d "global_cats" ;;
   py_iter cats)%result.

(** Whether the outer handler (line 171) has logged. *)
Definition abortou (tr : list evento) : bool :=
  existsb (fun ev => match ev with
                     | Log (ErroNaoTratado _) => true
                     | _ => false
                     end) tr.

(** [nunca_levanta m]: no exception leaves [m]. *)
Definition nunca_levanta {A} (m : M A) : Prop :=
  forall st, exists a, fst (m st) = Ok a.

(** What the run extracts and what each sink answers for it. *)
Definition categorias_extraidas (w : mundo) : list registro :=
  match valor (extrair_categorias_via_api w estado_inicial) with
  | Ok l => l
  | Raise _ => []
  end.

Definition resposta_de (p : result bool * estado) : bool :=
  match fst p with
  | Ok b => b
  | Raise _ => false
  end.

Definition sucesso_csv (w : mundo) (cats : list registro) : bool :=
  resposta_de (salvar_csv w cats csv_padrao estado_inicial).

Definition sucesso_excel (w : mundo) (cats : list registro) : bool :=
  resposta_de (salvar_excel w cats excel_padrao estado_inicial).

Definition sucesso_postgres (w : mundo) (cats : list registro) : bool :=
  resposta_de
    (salvar_postgres w cats tabela_padrao if_exists_padrao estado_inicial).

(** Page [p] answers 200 with the body [data], which passes the test of
    lines 104/133 and whose items are [itens]. *)
Definition pagina_aceita (w : mundo) (p : Z) (data : json)
           (itens : list json) : Prop :=
  exists r,
    api_get w (cookies_de w) p tamanho_pagina = Ok r /\
    status_code r = 200 /\
    corpo_json r = Ok data /\
    estrutura_inesperada data = Ok false /\
    itens_de data = Ok itens.

(** Page [p] answers with a status other than 200. *)
Definition pagina_recusada (w : mundo) (p : Z) : Prop :=
  exists r,
    api_get w (cookies_de w) p tamanho_pagina = Ok r /\
    status_code r <> 200.

(** A row with the seven columns, in order. *)
Definition linha_canonica (r : registro) : Prop :=
  map fst r = colunas_esperadas.

(** The invariant of the run: every accumulated row is canonical. *)
Definition inv (st : estado) : Prop :=
  Forall linha_canonica (todas_categorias st).

(** [m] keeps the invariant, and what it returns satisfies [G]. *)
Definition preserva {A} (G : A -> Prop) (m : M A) : Prop :=
  forall st, inv st ->
    inv (snd (m st)) /\ forall a, fst (m st) = Ok a -> G a.

(** The first API request of a run. *)
Definition primeiro_pedido (w : mundo) : evento :=
  GetApi (cookies_de w) 1 tamanho_pagina.

(** The run that ends in the outer handler right after the first request. *)
Definition encerrada (w : mundo) (e : exc)
  : result (list registro) * estado :=
  (Ok [],
   {| todas_categorias := [];
      eventos := eventos_sessao w ++
                 [primeiro_pedido w; Log (ErroNaoTratado e)] |}).

(** The events an extraction may leave for the cookies [c]: no write, and
    API requests only with those cookies and the fixed page size. *)
Definition evento_de_extracao (c : cookies) (ev : evento) : Prop :=
  match ev with
  | GetSessao | Sleep | Log _ => True
  | GetApi c' _ size => c' = c /\ size = tamanho_pagina
  | ToCsv _ _ | ToExcel _ _ | ToSql _ _ _ => False
  end.

(** [emite P m]: [m] only adds events to the trace, all of them in [P]. *)
Definition emite {A} (P : evento -> Prop) (m : M A) : Prop :=
  forall st, exists evs,
    eventos (snd (m st)) = eventos st ++ evs /\ Forall P evs.




(** Whether the row [r] has the key [c]. *)
Definition tem_chave (r : registro) (c : string) : bool :=
  match dict_get r c with
  | Some _ => true
  | None => false
  end.

(** The cell lines 187-201 leave for row [r] in column [c]: the row's value;
    NaN when the row lacks a key other rows have; the empty string when no
    row has the key. *)
Definition celula_preparada (categorias : list registro) (r : registro)
           (c : string) : celula :=
  match dict_get r c with
  | Some v => Valor v
  | None =>
      if existsb (fun r' => tem_chave r' c) categorias
      then NaN
      else Valor (JStr "")
  end.

(** The frame the three writers hand to pandas. *)
Definition quadro_preparado (categorias : list registro) : DataFrame :=
  {| columns := colunas_esperadas;
     linhas :=
       map (fun r =>
              map (fun c => (c, celula_preparada categorias r c))
                  colunas_esperadas)
           categorias |}.

(** A frame given by its columns and one cell function per row. *)
Definition tabela (cols : list string) (fs : list (string -> celula))
  : DataFrame :=
  {| columns := cols;
     linhas := map (fun f => map (fun c => (c, f c)) cols) fs |}.

(** The cell function of a row of [pd.DataFrame]. *)
Definition celula_bruta (r : registro) (c : string) : celula :=
  match dict_get r c with
  | Some v => Valor v
  | None => NaN
  end.

(** [f] with the columns [novas] set to the empty string. *)
Definition sobre (novas : list string) (f : string -> celula)
  : string -> celula :=
  fun x => if existsb (String.eqb x) novas then Valor (JStr "") else f x.

(** A column of the prepared frame, as the list of its cells. *)
Definition coluna_preparada (categorias : list registro) (c : string)
  : list celula :=
  map (fun r => celula_preparada categorias r c) categorias.


(** Whether a call of the world raised nothing. *)
Definition sem_erro {A} (r : result A) : bool :=
  match r with
  | Ok _ => true
  | Raise _ => false
  end.

(** A write to one of the three sinks. *)
Definition escrita (ev : evento) : bool :=
  match ev with
  | ToCsv _ _ | ToExcel _ _ | ToSql _ _ _ => true
  | _ => false
  end.

(** What [main] leaves in the trace after the extraction. *)
Definition cauda_main (w : mundo) : list evento :=
  let cats := categorias_extraidas w in
  if lista_vazia cats then [Log NenhumaExtraida]
  else
    rastro (salvar_csv w cats csv_padrao estado_inicial) ++
    rastro (salvar_excel w cats excel_padrao estado_inicial) ++
    rastro (salvar_postgres w cats tabela_padrao if_exists_padrao
                            estado_inicial) ++
    [Log (if sucesso_csv w cats || sucesso_excel w cats
             || sucesso_postgres w cats
          then Concluido else ErroSalvarDados)].

(** ** The Flattener on well-formed records *)

Lemma acrescenta_nil st : acrescenta st [] = st.
Proof.
  destruct st as [t e]. unfold acrescenta. simpl.
  now rewrite app_nil_r.
Qed.

Lemma acrescenta_app st a b :
  acrescenta (acrescenta st a) b = acrescenta st (a ++ b).
Proof.
  unfold acrescenta. simpl. now rewrite app_assoc.
Qed.

Lemma Forall2_nth_error_l {A B} (R : A -> B -> Prop) l l' i a :
  Forall2 R l l' -> nth_error l i = Some a ->
  exists b, nth_error l' i = Some b /\ R a b.
Proof.
  intros H. revert i. induction H as [|x y l l' Hxy _ IH]; intros i Hi.
  - destruct i; discriminate.
  - destruct i as [|i]; simpl in *.
    + injection Hi as <-. eauto.
    + eauto.
Qed.

Lemma nivel_dentro nos nomes i nome :
  Forall2 no_nomeado nos nomes ->
  nth_error nomes i = Some nome ->
  nivel (JArr nos) i = Ok nome.
Proof.
  intros HF Hn.
  assert (Hlen : List.length nos = List.length nomes)
    by (eapply Forall2_length; eauto).
  assert (Hi : (i < List.length nos)%nat).
  { rewrite Hlen. apply nth_error_Some. congruence. }
  unfold nivel. simpl.
  destruct (Z.ltb_spec (Z.of_nat i) (Z.of_nat (List.length nos))); [|lia].
  destruct (nth_error nos i) as [no|] eqn:Hno.
  - destruct (Forall2_nth_error_l _ HF Hno) as (b & Hb & campos & -> & Hc).
    simpl. rewrite Hc. congruence.
  - apply nth_error_None in Hno. lia.
Qed.

Lemma nivel_fora nos i :
  (List.length nos <= i)%nat -> nivel (JArr nos) i = Ok (JStr "").
Proof.
  intros Hi. unfold nivel. simpl.
  destruct (Z.ltb_spec (Z.of_nat i) (Z.of_nat (List.length nos)));
    [lia | reflexivity].
Qed.

(** The level a well-formed path gives at position [i]. *)
Lemma nivel_nomeado nos nomes i :
  Forall2 no_nomeado nos nomes ->
  nivel (JArr nos) i = Ok (nth i nomes (JStr "")).
Proof.
  intros HF.
  destruct (nth_error nomes i) as [nome|] eqn:Hn.
  - rewrite (nivel_dentro _ HF Hn). f_equal.
    symmetry. now apply nth_error_nth.
  - apply nth_error_None in Hn.
    rewrite nth_overflow by exact Hn.
    apply nivel_fora. rewrite (Forall2_length HF). exact Hn.
Qed.

Lemma primeira_imagem_lista imagens :
  primeira_imagem (JArr imagens) = Ok (hd (JStr "") imagens).
Proof. destruct imagens; reflexivity. Qed.

(** The row a well-formed record is flattened to. *)
Lemma categoria_item_bruto item nos nomes imagens :
  registro_bruto item nos nomes imagens ->
  exists id,
    py_get item "category_id" (JStr "") = Ok id /\
    categoria_item item =
      Ok [ ("categoria", nth 0 nomes (JStr ""));
           ("subcategoria", nth 1 nomes (JStr ""));
           ("3_nivel_categoria", nth 2 nomes (JStr ""));
           ("4_nivel_categoria", nth 3 nomes (JStr ""));
           ("5_nivel_categoria", nth 4 nomes (JStr ""));
           ("id_categoria", id);
           ("imagem_categoria", hd (JStr "") imagens) ].
Proof.
  intros [Hp HF Hi].
  destruct item as [| | | | | |kvs]; try discriminate Hp.
  eexists. split; [reflexivity|].
  unfold categoria_item. rewrite Hp, Hi.
  cbn [rbind].
  rewrite !(nivel_nomeado _ HF). cbn [rbind].
  rewrite primeira_imagem_lista. reflexivity.
Qed.

(** C1.  A raw category record whose path has [d] named nodes, [d <= 5], is
    flattened to a row whose level column [i] (of the five) holds the name
    of path node [i] when [i < d], and the empty string when [i >= d]. *)
Theorem flattener_levels item nos nomes imagens :
  registro_bruto item nos nomes imagens ->
  (List.length nos <= 5)%nat ->
  exists r,
    categoria_item item = Ok r /\
    forall i, (i < 5)%nat ->
      (forall nome, nth_error nomes i = Some nome ->
                    campo_nivel r i = Some nome) /\
      ((List.length nos <= i)%nat -> campo_nivel r i = Some (JStr "")).
Proof.
  intros Hrb Hd.
  destruct (categoria_item_bruto Hrb) as (id & _ & Hr).
  eexists. split; [exact Hr|].
  intros i Hi.
  assert (Hlen : List.length nos = List.length nomes)
    by (eapply Forall2_length; apply (rb_nomes Hrb)).
  split.
  - intros nome Hn.
    apply (nth_error_nth _ _ (JStr "")) in Hn.
    destruct i as [|[|[|[|[|i]]]]]; try lia;
      unfold campo_nivel; cbn; now rewrite Hn.
  - intros Hout.
    assert (Hov : nth i nomes (JStr "") = JStr "")
      by (apply nth_overflow; lia).
    destruct i as [|[|[|[|[|i]]]]]; try lia;
      unfold campo_nivel; cbn; now rewrite Hov.
Qed.

Lemma flattener_levels_witness :
  exists r,
    categoria_item Exemplos.tenis = Ok r /\
    campo_nivel r 0 = Some (JStr "Moda") /\
    campo_nivel r 2 = Some (JStr "Tenis") /\
    campo_nivel r 3 = Some (JStr "") /\
    campo_nivel r 4 = Some (JStr "").
Proof.
  destruct (@flattener_levels Exemplos.tenis
              (map Exemplos.no ["Moda"; "Calcados"; "Tenis"])
              (map JStr ["Moda"; "Calcados"; "Tenis"]) [])
    as (r & Hr & H).
  - constructor; [reflexivity | | reflexivity].
    repeat constructor; eexists; split; reflexivity.
  - simpl. lia.
  - exists r. split; [exact Hr|].
    repeat split.
    + apply (H 0%nat); [lia | reflexivity].
    + apply (H 2%nat); [lia | reflexivity].
    + apply (H 3%nat); [lia | simpl; lia].
    + apply (H 4%nat); [lia | simpl; lia].
Defined.

(** C7.  The image column of a raw category record's row is the first entry
    of its image list when the list is non-empty, and the empty string when
    the list is empty or the record has no ["images"] key. *)
Theorem flattener_image item nos nomes imagens :
  registro_bruto item nos nomes imagens ->
  exists r,
    categoria_item item = Ok r /\
    (forall primeira resto, imagens = primeira :: resto ->
       dict_get r "imagem_categoria" = Some primeira) /\
    (imagens = [] -> dict_get r "imagem_categoria" = Some (JStr "")) /\
    (forall campos, item = JObj campos -> dict_get campos "images" = None ->
       dict_get r "imagem_categoria" = Some (JStr "")).
Proof.
  intros Hrb.
  destruct (categoria_item_bruto Hrb) as (id & _ & Hr).
  eexists. split; [exact Hr|].
  split; [|split].
  - intros primeira resto ->. reflexivity.
  - intros ->. reflexivity.
  - intros campos -> Hnone.
    pose proof (rb_images Hrb) as Hi. simpl in Hi. rewrite Hnone in Hi.
    injection Hi as <-. reflexivity.
Qed.

Lemma flattener_image_witness :
  exists r,
    categoria_item Exemplos.casa = Ok r /\
    dict_get r "imagem_categoria" = Some (JStr "c.png").
Proof.
  destruct (@flattener_image Exemplos.casa
              (map Exemplos.no ["Casa"]) (map JStr ["Casa"])
              (map JStr ["c.png"; "d.png"]))
    as (r & Hr & H & _).
  - constructor; [reflexivity | | reflexivity].
    repeat constructor; eexists; split; reflexivity.
  - exists r. split; [exact Hr|]. eapply H. reflexivity.
Defined.

(** ** The item loop *)

Lemma processar_item_run item st :
  processar_item item st =
    match categoria_item item with
    | Ok r => (Ok tt, {| todas_categorias := todas_categorias st ++ [r];
                         eventos := eventos st |})
    | Raise e => (Ok tt, acrescenta st [Log (ErroProcessarItem e)])
    end.
Proof.
  unfold processar_item, tentar, bind, lift.
  destruct (categoria_item item); reflexivity.
Qed.

Lemma para_cada_itens itens : forall st,
  para_cada itens processar_item st = (Ok tt, apos_itens st itens).
Proof.
  induction itens as [|item resto IH]; intros [todas evs].
  - unfold apos_itens. simpl. now rewrite !app_nil_r.
  - cbn [para_cada]. unfold bind at 1. rewrite processar_item_run.
    unfold apos_itens, registros_de, erros_de. cbn [flat_map].
    destruct (categoria_item item) as [r|e]; rewrite IH;
      unfold apos_itens, acrescenta; simpl;
      now rewrite <- ?app_assoc.
Qed.

Lemma registros_de_app a b :
  registros_de (a ++ b) = registros_de a ++ registros_de b.
Proof. apply flat_map_app. Qed.

(** C6, as amended.  An item whose flattening raises is skipped with one
    error line and no row; the loop goes on with the next item and always
    reaches the end of the page, whose rows are those of the other items in
    order.  An item that only lacks its identifier does not fail: its row is
    appended with the empty string as [id_categoria]. *)
Theorem item_failure_skipped :
  (forall item e, categoria_item item = Raise e ->
     item_pulado item /\
     forall resto st,
       para_cada (item :: resto) processar_item st =
         para_cada resto processar_item
                   (acrescenta st [Log (ErroProcessarItem e)])) /\
  (forall itens st,
     para_cada itens processar_item st = (Ok tt, apos_itens st itens)) /\
  (forall antes item depois e, categoria_item item = Raise e ->
     registros_de (antes ++ item :: depois) =
       registros_de antes ++ registros_de depois) /\
  (forall campos nos nomes imagens,
     registro_bruto (JObj campos) nos nomes imagens ->
     dict_get campos "category_id" = None ->
     exists r, categoria_item (JObj campos) = Ok r /\
               dict_get r "id_categoria" = Some (JStr "") /\
               forall st, processar_item (JObj campos) st =
                 (Ok tt, {| todas_categorias := todas_categorias st ++ [r];
                            eventos := eventos st |})).
Proof.
  repeat split.
  - intros st. exists e. rewrite processar_item_run, H. reflexivity.
  - intros resto st. cbn [para_cada]. unfold bind at 1.
    rewrite processar_item_run, H. reflexivity.
  - intros itens st. apply para_cada_itens.
  - intros antes item depois e H.
    rewrite registros_de_app. f_equal.
    unfold registros_de. cbn [flat_map]. now rewrite H.
  - intros campos nos nomes imagens Hrb Hid.
    destruct (categoria_item_bruto Hrb) as (id & Hget & Hr).
    simpl in Hget. rewrite Hid in Hget. injection Hget as <-.
    eexists. split; [exact Hr|]. split; [reflexivity|].
    intros st. rewrite processar_item_run, Hr. reflexivity.
Qed.

Lemma item_failure_skipped_witness :
  item_pulado Exemplos.sem_nome /\
  para_cada [Exemplos.roupas; Exemplos.sem_nome; Exemplos.casa]
            processar_item estado_inicial =
    (Ok tt, {| todas_categorias :=
                 registros_de [Exemplos.roupas; Exemplos.casa];
               eventos := [Log (ErroProcessarItem KeyError)] |}).
Proof.
  destruct item_failure_skipped as (H1 & H2 & H3 & _).
  split.
  - apply (H1 Exemplos.sem_nome KeyError). reflexivity.
  - rewrite H2. unfold apos_itens. f_equal.
Defined.

(** C6 as it is written fails: an item that has no identifier field is not
    skipped. *)
Lemma missing_id_not_skipped :
  py_getitem_str Exemplos.sem_id "category_id" = Raise KeyError /\
  ~ item_pulado Exemplos.sem_id.
Proof.
  split; [reflexivity|].
  intros H. destruct (H estado_inicial) as [e He].
  vm_compute in He. discriminate He.
Qed.

(** ** How computations use the state *)

Section Fechos.

Context {A B : Type}.

Lemma so_rastro_ret (a : A) : so_rastro (ret a).
Proof. intros st. unfold ret, rastro. simpl. now rewrite acrescenta_nil. Qed.

Lemma so_rastro_lift (r : result A) : so_rastro (lift r).
Proof. intros st. unfold lift, rastro. simpl. now rewrite acrescenta_nil. Qed.

Lemma so_rastro_bind (m : M A) (k : A -> M B) :
  so_rastro m -> (forall a, so_rastro (k a)) -> so_rastro (bind m k).
Proof.
  intros Hm Hk st. unfold bind.
  rewrite (Hm st).
  destruct (m estado_inicial) as [[a|e] st0]; unfold rastro; simpl.
  - rewrite (Hk a (acrescenta st (eventos st0))).
    rewrite (Hk a st0). unfold rastro. simpl.
    now rewrite acrescenta_app.
  - reflexivity.
Qed.

Lemma so_rastro_tentar (m : M A) (h : exc -> M A) :
  so_rastro m -> (forall e, so_rastro (h e)) -> so_rastro (tentar m h).
Proof.
  intros Hm Hh st. unfold tentar.
  rewrite (Hm st).
  destruct (m estado_inicial) as [[a|e] st0]; unfold rastro; simpl.
  - reflexivity.
  - rewrite (Hh e (acrescenta st (eventos st0))).
    rewrite (Hh e st0). unfold rastro. simpl.
    now rewrite acrescenta_app.
Qed.

Lemma alheio_ret (a : A) : alheio (ret a).
Proof. intros evs st. reflexivity. Qed.

Lemma alheio_lift (r : result A) : alheio (lift r).
Proof. intros evs st. reflexivity. Qed.

Lemma alheio_bind (m : M A) (k : A -> M B) :
  alheio m -> (forall a, alheio (k a)) -> alheio (bind m k).
Proof.
  intros Hm Hk evs st. unfold bind. rewrite (Hm evs st).
  destruct (m st) as [[a|e] st0]; simpl.
  - apply Hk.
  - reflexivity.
Qed.

Lemma alheio_tentar (m : M A) (h : exc -> M A) :
  alheio m -> (forall e, alheio (h e)) -> alheio (tentar m h).
Proof.
  intros Hm Hh evs st. unfold tentar. rewrite (Hm evs st).
  destruct (m st) as [[a|e] st0]; simpl.
  - reflexivity.
  - apply Hh.
Qed.

End Fechos.

Lemma so_rastro_emit ev : so_rastro (emit ev).
Proof. intros st. reflexivity. Qed.

Lemma alheio_emit ev : alheio (emit ev).
Proof.
  intros evs st. unfold emit, prefixa. simpl. now rewrite app_assoc.
Qed.

Lemma alheio_append r : alheio (append r).
Proof. intros evs st. reflexivity. Qed.

Lemma alheio_nova_lista : alheio nova_lista.
Proof. intros evs st. reflexivity. Qed.

Lemma alheio_ler_lista : alheio ler_lista.
Proof. intros evs st. reflexivity. Qed.

Lemma alheio_para_cada {A} (f : A -> M unit) l :
  (forall a, alheio (f a)) -> alheio (para_cada l f).
Proof.
  intros Hf. induction l as [|a l IH]; cbn [para_cada].
  - apply alheio_ret.
  - apply alheio_bind; [apply Hf | intros _; exact IH].
Qed.

Lemma so_rastro_alheio {A} (m : M A) : so_rastro m -> alheio m.
Proof.
  intros H evs st. rewrite (H (prefixa evs st)), (H st).
  unfold acrescenta, prefixa. simpl. now rewrite app_assoc.
Qed.

Create HintDb estado.
#[local] Hint Resolve so_rastro_ret so_rastro_lift so_rastro_emit
  alheio_ret alheio_lift alheio_emit alheio_append alheio_nova_lista
  alheio_ler_lista : estado.

(** Takes a computation written with [bind], [tentar] and [if] apart. *)
Ltac decompor :=
  repeat first
    [ progress intros
    | apply so_rastro_bind | apply so_rastro_tentar
    | apply alheio_bind | apply alheio_tentar | apply alheio_para_cada
    | match goal with
      | |- so_rastro (if ?b then _ else _) => destruct b
      | |- alheio (if ?b then _ else _) => destruct b
      end
    | solve [unfold log; auto with estado] ].

(** ** The session bootstrap and the requests *)

Lemma obter_cookie_sessao_run w st :
  obter_cookie_sessao w st =
    (Ok (cookies_de w), acrescenta st (eventos_sessao w)).
Proof.
  unfold obter_cookie_sessao, cookies_de, eventos_sessao,
    tentar, bind, lift, log, emit, ret, acrescenta.
  destruct (sessao_get w) as [[s c]|e]; simpl.
  - destruct (s =? 200); simpl; now rewrite <- app_assoc.
  - now rewrite <- app_assoc.
Qed.

Lemma requests_get_run w c p st :
  requests_get w c p st =
    (api_get w c p tamanho_pagina,
     acrescenta st [GetApi c p tamanho_pagina]).
Proof. reflexivity. Qed.

Lemma processar_itens_run data st :
  processar_itens data st =
    match itens_de data with
    | Ok itens => (Ok tt, acrescenta (apos_itens st itens) [Sleep])
    | Raise e => (Raise e, st)
    end.
Proof.
  unfold processar_itens, itens_de, bind, lift.
  destruct (py_getitem_str data "data") as [d|e]; [|reflexivity].
  cbn [rbind].
  destruct (py_getitem_str d "global_cats") as [cats|e]; [|reflexivity].
  cbn [rbind].
  destruct (py_iter cats) as [itens|e]; [|reflexivity].
  rewrite para_cada_itens. reflexivity.
Qed.

Section Iteracao.

Variable w : mundo.
Variable c : cookies.

(** Page 1 reuses the body of the first request. *)
Lemma iteracao_primeira data itens st :
  itens_de data = Ok itens ->
  iteracao w c 1 data st =
    (Ok data, acrescenta (apos_itens st itens) [Sleep]).
Proof.
  intros H.
  change (iteracao w c 1 data st)
    with (bind (processar_itens data) (fun _ => ret data) st).
  unfold bind. rewrite processar_itens_run, H. reflexivity.
Qed.

Section Seguinte.

Variables (p : Z) (r : resposta).
Hypothesis Hp : 1 < p.
Hypothesis Hget : api_get w c p tamanho_pagina = Ok r.

Let pedido : evento := GetApi c p tamanho_pagina.

Lemma iteracao_recusada data st :
  status_code r <> 200 ->
  iteracao w c p data st =
    (Ok data,
     acrescenta st [pedido; Log (ErroAcessarPagina p (status_code r))]).
Proof.
  intros Hs. unfold iteracao.
  destruct (Z.ltb_spec 1 p); [|lia].
  unfold bind at 1. rewrite requests_get_run, Hget.
  destruct (Z.eqb_spec (status_code r) 200); [contradiction|].
  cbn. unfold acrescenta. cbn. now rewrite <- app_assoc.
Qed.

Lemma iteracao_estrutura data data' st :
  status_code r = 200 ->
  corpo_json r = Ok data' ->
  estrutura_inesperada data' = Ok true ->
  iteracao w c p data st =
    (Ok data',
     acrescenta st [pedido; Log (EstruturaDiferentePagina p)]).
Proof.
  intros Hs Hj He. unfold iteracao.
  destruct (Z.ltb_spec 1 p); [|lia].
  unfold bind at 1. rewrite requests_get_run, Hget, Hs.
  cbn [Z.eqb Pos.eqb negb]. unfold bind, lift. rewrite Hj, He.
  cbn. unfold acrescenta. cbn. now rewrite <- app_assoc.
Qed.

Lemma iteracao_boa data data' itens st :
  status_code r = 200 ->
  corpo_json r = Ok data' ->
  estrutura_inesperada data' = Ok false ->
  itens_de data' = Ok itens ->
  iteracao w c p data st =
    (Ok data',
     acrescenta (apos_itens (acrescenta st [pedido]) itens) [Sleep]).
Proof.
  intros Hs Hj He Hi. unfold iteracao.
  destruct (Z.ltb_spec 1 p); [|lia].
  unfold bind at 1. rewrite requests_get_run, Hget, Hs.
  cbn [Z.eqb Pos.eqb negb]. unfold bind, lift. rewrite Hj, He.
  rewrite processar_itens_run, Hi. reflexivity.
Qed.

End Seguinte.

Lemma paginas_loop_cons p resto data st :
  paginas_loop w c (p :: resto) data st =
    match iteracao w c p data st with
    | (Ok data', st') => paginas_loop w c resto data' st'
    | (Raise e, st') => (Raise e, st')
    end.
Proof. reflexivity. Qed.

End Iteracao.

(** [extrair_categorias_via_api] once the session bootstrap has run. *)
Lemma extrair_run w st :
  extrair_categorias_via_api w st =
    tentar (extrair_corpo w (cookies_de w))
           (fun e => bind (log (ErroNaoTratado e)) (fun _ => ler_lista))
           {| todas_categorias := [];
              eventos := eventos st ++ eventos_sessao w |}.
Proof.
  unfold extrair_categorias_via_api.
  unfold bind at 1. unfold nova_lista.
  unfold bind at 1. rewrite obter_cookie_sessao_run. reflexivity.
Qed.

(** ** The first request *)

Section Primeira.

Variables (w : mundo) (r : resposta).
Hypothesis Hget : api_get w (cookies_de w) 1 tamanho_pagina = Ok r.

Let pedido : evento := GetApi (cookies_de w) 1 tamanho_pagina.

Lemma primeira_recusada st :
  status_code r <> 200 ->
  extrair_categorias_via_api w st =
    (Ok [],
     {| todas_categorias := [];
        eventos := eventos st ++ eventos_sessao w ++
                   [pedido; Log (ErroAcessarAPI (status_code r))] |}).
Proof.
  intros Hs. rewrite extrair_run. unfold tentar, extrair_corpo.
  unfold bind at 1. rewrite requests_get_run, Hget.
  destruct (Z.eqb_spec (status_code r) 200); [contradiction|].
  cbn. now rewrite <- !app_assoc.
Qed.

Lemma primeira_estrutura data st :
  status_code r = 200 ->
  corpo_json r = Ok data ->
  estrutura_inesperada data = Ok true ->
  extrair_categorias_via_api w st =
    (Ok [],
     {| todas_categorias := [];
        eventos := eventos st ++ eventos_sessao w ++
                   [pedido; Log (EstruturaDiferente data)] |}).
Proof.
  intros Hs Hj He. rewrite extrair_run. unfold tentar, extrair_corpo.
  unfold bind at 1. rewrite requests_get_run, Hget, Hs.
  cbn [Z.eqb Pos.eqb negb]. unfold bind, lift. rewrite Hj, He.
  cbn. now rewrite <- !app_assoc.
Qed.

(** The first response is accepted and declares [n] pages: the run is the
    page loop over [1..n], then one of the two ways out. *)
Lemma primeira_boa data total n st :
  status_code r = 200 ->
  corpo_json r = Ok data ->
  estrutura_inesperada data = Ok false ->
  ler_total_itens data = Ok total ->
  calcular_total_paginas total = Ok (NInt n) ->
  extrair_categorias_via_api w st =
    match paginas_loop w (cookies_de w) (range_Z 1 (n + 1)) data
            {| todas_categorias := [];
               eventos := eventos st ++ eventos_sessao w ++
                          [pedido; Log (TotalItens total);
                           Log (TotalPaginas (NInt n))] |}
    with
    | (Ok _, st') =>
        (Ok (todas_categorias st'),
         acrescenta st'
           [Log (TotalExtraidas (List.length (todas_categorias st')))])
    | (Raise e, st') =>
        (Ok (todas_categorias st'), acrescenta st' [Log (ErroNaoTratado e)])
    end.
Proof.
  intros Hs Hj He Ht Hn. rewrite extrair_run. unfold tentar, extrair_corpo.
  unfold bind at 1. rewrite requests_get_run, Hget, Hs.
  cbn [Z.eqb Pos.eqb negb]. unfold bind, lift. rewrite Hj, He, Ht, Hn.
  cbn [py_range num_add log emit todas_categorias eventos acrescenta].
  rewrite <- !app_assoc. cbn [app].
  destruct (paginas_loop _ _ _ _ _) as [[[]|e] st']; reflexivity.
Qed.

End Primeira.

(** ** What the page loop leaves in the trace *)

Lemma abortou_app a b : abortou (a ++ b) = abortou a || abortou b.
Proof. apply existsb_app. Qed.

Lemma paginas_pedidas_app a b :
  paginas_pedidas (a ++ b) = paginas_pedidas a ++ paginas_pedidas b.
Proof. apply flat_map_app. Qed.

Lemma erros_de_quietos itens :
  abortou (erros_de itens) = false /\ paginas_pedidas (erros_de itens) = [].
Proof.
  induction itens as [|item resto [IHa IHp]]; [now split|].
  unfold erros_de. cbn [flat_map]. fold (erros_de resto).
  rewrite abortou_app, paginas_pedidas_app, IHa, IHp.
  destruct (categoria_item item); now split.
Qed.

Lemma eventos_sessao_quietos w :
  abortou (eventos_sessao w) = false /\
  paginas_pedidas (eventos_sessao w) = [].
Proof.
  unfold eventos_sessao.
  destruct (sessao_get w) as [[s c]|e]; [destruct (s =? 200)|]; now split.
Qed.

(** One turn of the loop issues the request of its page when the page is
    not the first, no other request, and never logs for the outer
    handler. *)
Lemma iteracao_pedidos w c p data st :
  exists evs,
    eventos (snd (iteracao w c p data st)) = eventos st ++ evs /\
    abortou evs = false /\
    paginas_pedidas evs = if 1 <? p then [p] else [].
Proof.
  unfold iteracao. destruct (1 <? p).
  - unfold bind at 1. rewrite requests_get_run.
    destruct (api_get w c p tamanho_pagina) as [r|e].
    + destruct (status_code r =? 200); cbn [negb].
      * unfold bind, lift.
        destruct (corpo_json r) as [data'|e];
          [|exists [GetApi c p tamanho_pagina]; now repeat split].
        destruct (estrutura_inesperada data') as [[|]|e];
          [ eexists [_; _]; cbn; rewrite <- app_assoc; now repeat split
          |
          | exists [GetApi c p tamanho_pagina]; now repeat split ].
        rewrite processar_itens_run.
        destruct (itens_de data') as [itens|e];
          [|exists [GetApi c p tamanho_pagina]; now repeat split].
        destruct (erros_de_quietos itens) as [Ha Hp].
        exists (GetApi c p tamanho_pagina :: erros_de itens ++ [Sleep]).
        cbn. rewrite <- !app_assoc. cbn.
        rewrite abortou_app, paginas_pedidas_app, Ha, Hp.
        now repeat split.
      * eexists [_; _]. cbn. rewrite <- app_assoc. now repeat split.
    + exists [GetApi c p tamanho_pagina]. now repeat split.
  - unfold bind. rewrite processar_itens_run.
    destruct (itens_de data) as [itens|e].
    + destruct (erros_de_quietos itens) as [Ha Hp].
      exists (erros_de itens ++ [Sleep]).
      cbn. rewrite <- !app_assoc.
      rewrite abortou_app, paginas_pedidas_app, Ha, Hp.
      now repeat split.
    + exists []. cbn. rewrite app_nil_r. now repeat split.
Qed.

(** The loop requests the pages after the first in order, one request each,
    up to the page at which an exception stops it. *)
Lemma paginas_loop_pedidos w c ps : forall data st,
  exists evs,
    eventos (snd (paginas_loop w c ps data st)) = eventos st ++ evs /\
    abortou evs = false /\
    (exists resto, filter (Z.ltb 1) ps = paginas_pedidas evs ++ resto) /\
    (forall u, fst (paginas_loop w c ps data st) = Ok u ->
               paginas_pedidas evs = filter (Z.ltb 1) ps).
Proof.
  induction ps as [|p resto IH]; intros data st.
  - exists []. cbn. rewrite app_nil_r. repeat split; trivial. now exists [].
  - rewrite paginas_loop_cons.
    destruct (iteracao_pedidos w c p data st) as (e1 & He1 & Ha1 & Hp1).
    assert (Hf : filter (Z.ltb 1) (p :: resto) =
                 paginas_pedidas e1 ++ filter (Z.ltb 1) resto).
    { cbn [filter]. rewrite Hp1. now destruct (1 <? p). }
    destruct (iteracao w c p data st) as [[data'|e] st1]; cbn [snd] in He1.
    + destruct (IH data' st1) as (e2 & He2 & Ha2 & [r2 Hr2] & Hok).
      exists (e1 ++ e2). repeat split.
      * rewrite He2, He1. now rewrite app_assoc.
      * now rewrite abortou_app, Ha1, Ha2.
      * exists r2. now rewrite Hf, Hr2, paginas_pedidas_app, app_assoc.
      * intros u Hu. rewrite paginas_pedidas_app, Hf. f_equal. eauto.
    + exists e1. cbn [fst snd]. repeat split; trivial.
      * eexists. exact Hf.
      * discriminate.
Qed.

(** The requests of a whole run whose first response is accepted and
    declares [n] pages. *)
Lemma extrair_pedidos w r data total n :
  api_get w (cookies_de w) 1 tamanho_pagina = Ok r ->
  status_code r = 200 ->
  corpo_json r = Ok data ->
  estrutura_inesperada data = Ok false ->
  ler_total_itens data = Ok total ->
  calcular_total_paginas total = Ok (NInt n) ->
  let tr := rastro (extrair_categorias_via_api w estado_inicial) in
  let todas := 1 :: filter (Z.ltb 1) (range_Z 1 (n + 1)) in
  In (Log (TotalPaginas (NInt n))) tr /\
  (exists resto, todas = paginas_pedidas tr ++ resto) /\
  (abortou tr = false -> paginas_pedidas tr = todas).
Proof.
  intros Hget Hs Hj He Ht Hn tr todas. subst tr todas.
  rewrite (@primeira_boa w r Hget data total n estado_inicial Hs Hj He Ht Hn).
  unfold estado_inicial. cbn [eventos app].
  match goal with
  | |- context [paginas_loop w ?c ?ps ?d ?st] =>
      destruct (paginas_loop_pedidos w c ps d st)
        as (evs & Hev & Hab & [resto Hpre] & Hok);
      destruct (paginas_loop w c ps d st) as [[u|e] st']
  end; cbn [fst snd eventos] in Hev, Hok;
    unfold rastro; cbn [snd acrescenta eventos]; rewrite Hev;
    cbn [app eventos];
    destruct (eventos_sessao_quietos w) as [Has Hps];
    rewrite !paginas_pedidas_app, !abortou_app, Hps, Has, Hab;
    cbn [app paginas_pedidas flat_map abortou existsb orb].
  - repeat split.
    + rewrite !in_app_iff. simpl. auto 10.
    + exists []. rewrite !app_nil_r. f_equal. symmetry. eauto.
    + intros _. rewrite !app_nil_r. f_equal. eauto.
  - repeat split.
    + rewrite !in_app_iff. simpl. auto 10.
    + exists resto. rewrite !app_nil_r. now rewrite Hpre.
    + discriminate.
Qed.

Lemma calcular_total_paginas_int t :
  calcular_total_paginas (JInt t) =
    Ok (NInt ((t + tamanho_pagina - 1) / tamanho_pagina)).
Proof. reflexivity. Qed.

(** C3, as amended.  For an integer [total_itens] the page count is the
    ceiling of [total_itens / 100]: the least [n] with
    [total_itens <= 100 * n].  When the first response declares 250 items
    the count is 3, the requests of the run are always an initial part of
    pages 1, 2, 3, and they are exactly 1, 2, 3 when no exception reaches
    the outer handler. *)
Theorem total_pages_ceiling :
  (forall t, exists n,
     calcular_total_paginas (JInt t) = Ok (NInt n) /\
     tamanho_pagina * (n - 1) < t <= tamanho_pagina * n) /\
  (forall w r data,
     api_get w (cookies_de w) 1 tamanho_pagina = Ok r ->
     status_code r = 200 ->
     corpo_json r = Ok data ->
     estrutura_inesperada data = Ok false ->
     ler_total_itens data = Ok (JInt 250) ->
     let tr := rastro (extrair_categorias_via_api w estado_inicial) in
     calcular_total_paginas (JInt 250) = Ok (NInt 3) /\
     In (Log (TotalPaginas (NInt 3))) tr /\
     (exists resto, [1; 2; 3] = paginas_pedidas tr ++ resto) /\
     (abortou tr = false -> paginas_pedidas tr = [1; 2; 3])).
Proof.
  split.
  - intros t. eexists. split; [apply calcular_total_paginas_int|].
    unfold tamanho_pagina.
    pose proof (Z.div_mod (t + 100 - 1) 100 ltac:(lia)).
    pose proof (Z.mod_pos_bound (t + 100 - 1) 100 ltac:(lia)).
    lia.
  - intros w r data Hget Hs Hj He Ht tr.
    split; [reflexivity|].
    exact (@extrair_pedidos w r data (JInt 250) 3 Hget Hs Hj He Ht eq_refl).
Qed.

Lemma total_pages_ceiling_witness :
  (exists n, calcular_total_paginas (JInt 250) = Ok (NInt n) /\
             tamanho_pagina * (n - 1) < 250 <= tamanho_pagina * n) /\
  paginas_pedidas
    (rastro (extrair_categorias_via_api Exemplos.tres_paginas
                                        estado_inicial)) = [1; 2; 3].
Proof.
  destruct total_pages_ceiling as [H1 H2].
  split; [apply (H1 250)|].
  eapply (H2 Exemplos.tres_paginas); reflexivity.
Defined.

(** C3 as it is written fails: the first response declares 250 items, the
    body of page 2 is not JSON, the exception reaches the outer handler and
    page 3 is never requested. *)
Lemma page_requests_stop_at_exception :
  api_get Exemplos.pagina2_nao_json
          (cookies_de Exemplos.pagina2_nao_json) 1 tamanho_pagina =
    Exemplos.ok200 (Exemplos.corpo_de 250 [Exemplos.roupas; Exemplos.tenis])
  /\
  ler_total_itens
    (Exemplos.corpo_de 250 [Exemplos.roupas; Exemplos.tenis]) =
    Ok (JInt 250) /\
  paginas_pedidas
    (rastro (extrair_categorias_via_api Exemplos.pagina2_nao_json
                                        estado_inicial)) = [1; 2] /\
  paginas_pedidas
    (rastro (extrair_categorias_via_api Exemplos.pagina2_nao_json
                                        estado_inicial)) <> [1; 2; 3] /\
  In (Log (ErroNaoTratado JSONDecodeError))
     (rastro (extrair_categorias_via_api Exemplos.pagina2_nao_json
                                         estado_inicial)).
Proof.
  repeat split; try reflexivity.
  - vm_compute. discriminate.
  - vm_compute. auto 10.
Qed.

(** C10.  When the first response is accepted, its ["data"] object has a
    ["global_cats"] entry and either no ["total"] or a total of 0, the run
    reads 0 items, computes 0 pages, loops over no page and returns the
    empty list after its single request, whatever the first page holds. *)
Theorem no_total_discards_first_page w r campos d cats :
  api_get w (cookies_de w) 1 tamanho_pagina = Ok r ->
  status_code r = 200 ->
  corpo_json r = Ok (JObj campos) ->
  dict_get campos "data" = Some (JObj d) ->
  dict_get d "global_cats" = Some cats ->
  dict_get d "total" = None \/ dict_get d "total" = Some (JInt 0) ->
  ler_total_itens (JObj campos) = Ok (JInt 0) /\
  calcular_total_paginas (JInt 0) = Ok (NInt 0) /\
  py_range 1 (num_add (NInt 0) 1) = Ok [] /\
  extrair_categorias_via_api w estado_inicial =
    (Ok [],
     {| todas_categorias := [];
        eventos := eventos_sessao w ++
                   [ GetApi (cookies_de w) 1 tamanho_pagina;
                     Log (TotalItens (JInt 0));
                     Log (TotalPaginas (NInt 0));
                     Log (TotalExtraidas 0) ] |}).
Proof.
  intros Hget Hs Hj Hd Hc Ht.
  assert (Hl : ler_total_itens (JObj campos) = Ok (JInt 0)).
  { unfold ler_total_itens. simpl. rewrite Hd. simpl.
    destruct Ht as [-> | ->]; reflexivity. }
  assert (He : estrutura_inesperada (JObj campos) = Ok false).
  { unfold estrutura_inesperada. simpl. rewrite Hd. simpl. now rewrite Hc. }
  repeat split; trivial.
  rewrite (@primeira_boa w r Hget (JObj campos) (JInt 0) 0 estado_inicial
             Hs Hj He Hl eq_refl).
  cbn. unfold acrescenta. cbn. now rewrite <- app_assoc.
Qed.

Lemma no_total_discards_first_page_witness :
  itens_de (JObj [("data", JObj [("global_cats",
                                  JArr [Exemplos.roupas; Exemplos.casa])])])
    = Ok [Exemplos.roupas; Exemplos.casa] /\
  extrair_categorias_via_api Exemplos.sem_total estado_inicial =
    (Ok [],
     {| todas_categorias := [];
        eventos := [ GetSessao; Log CookiesObtidos;
                     GetApi [("SPC_F", "x")] 1 100;
                     Log (TotalItens (JInt 0));
                     Log (TotalPaginas (NInt 0));
                     Log (TotalExtraidas 0) ] |}).
Proof.
  split; [reflexivity|].
  eapply (@no_total_discards_first_page Exemplos.sem_total);
    try reflexivity.
  left. reflexivity.
Defined.

(** C4, as amended.  On a page after the first, a body on which the test of
    line 133 holds is logged and that page alone is skipped: no row is
    added and the loop goes on with the remaining pages.  On the first page
    the same test (line 104) ends the run: the error is logged and the
    empty list is returned. *)
Theorem shape_failure_skips_later_page :
  (forall w c p r data data' resto st,
     1 < p ->
     api_get w c p tamanho_pagina = Ok r ->
     status_code r = 200 ->
     corpo_json r = Ok data' ->
     estrutura_inesperada data' = Ok true ->
     paginas_loop w c (p :: resto) data st =
       paginas_loop w c resto data'
         (acrescenta st [ GetApi c p tamanho_pagina;
                          Log (EstruturaDiferentePagina p) ])) /\
  (forall w r data,
     api_get w (cookies_de w) 1 tamanho_pagina = Ok r ->
     status_code r = 200 ->
     corpo_json r = Ok data ->
     estrutura_inesperada data = Ok true ->
     extrair_categorias_via_api w estado_inicial =
       (Ok [],
        {| todas_categorias := [];
           eventos := eventos_sessao w ++
                      [ GetApi (cookies_de w) 1 tamanho_pagina;
                        Log (EstruturaDiferente data) ] |})).
Proof.
  split.
  - intros w c p r data data' resto st Hp Hget Hs Hj He.
    rewrite paginas_loop_cons.
    now rewrite (@iteracao_estrutura w c p r Hp Hget data data' st Hs Hj He).
  - intros w r data Hget Hs Hj He.
    exact (@primeira_estrutura w r Hget data estado_inicial Hs Hj He).
Qed.

Lemma shape_failure_skips_later_page_witness :
  (forall st,
     paginas_loop Exemplos.pagina2_sem_chaves [] [2; 3] JNull st =
       paginas_loop Exemplos.pagina2_sem_chaves [] [3]
         (JObj [("error", JInt 1)])
         (acrescenta st [ GetApi [] 2 100;
                          Log (EstruturaDiferentePagina 2) ])) /\
  valor (extrair_categorias_via_api Exemplos.pagina2_sem_chaves
                                    estado_inicial) =
    Ok (registros_de [Exemplos.roupas; Exemplos.tenis; Exemplos.casa]) /\
  valor (extrair_categorias_via_api Exemplos.primeira_sem_chaves
                                    estado_inicial) = Ok [].
Proof.
  destruct shape_failure_skips_later_page as [H1 H2].
  split; [|split].
  - intros st. eapply (H1 Exemplos.pagina2_sem_chaves); reflexivity || lia.
  - reflexivity.
  - erewrite (H2 Exemplos.primeira_sem_chaves); reflexivity.
Defined.

(** C4 as it is written fails on the first page: the body declares 250
    items and lacks ["global_cats"], pages 2 and 3 would be served, and the
    run ends after its first request with the empty list. *)
Lemma first_page_shape_failure_ends_run :
  api_get Exemplos.primeira_sem_chaves
          (cookies_de Exemplos.primeira_sem_chaves) 1 tamanho_pagina =
    Exemplos.ok200 Exemplos.primeira_sem_cats /\
  estrutura_inesperada Exemplos.primeira_sem_cats = Ok true /\
  api_get Exemplos.primeira_sem_chaves
          (cookies_de Exemplos.primeira_sem_chaves) 3 tamanho_pagina =
    Exemplos.ok200 (Exemplos.corpo_de 250 [Exemplos.casa]) /\
  itens_de (Exemplos.corpo_de 250 [Exemplos.casa]) = Ok [Exemplos.casa] /\
  valor (extrair_categorias_via_api Exemplos.primeira_sem_chaves
                                    estado_inicial) = Ok [] /\
  paginas_pedidas
    (rastro (extrair_categorias_via_api Exemplos.primeira_sem_chaves
                                        estado_inicial)) = [1] /\
  ~ In 3 (paginas_pedidas
            (rastro (extrair_categorias_via_api Exemplos.primeira_sem_chaves
                                                estado_inicial))).
Proof.
  repeat split; try reflexivity.
  intros H. vm_compute in H. intuition discriminate.
Qed.

(** ** The sinks and [main] *)

Lemma nunca_levanta_ret {A} (a : A) : nunca_levanta (ret a).
Proof. intros st. now exists a. Qed.

Lemma nunca_levanta_emit ev : nunca_levanta (emit ev).
Proof. intros st. now exists tt. Qed.

Lemma nunca_levanta_ler_lista : nunca_levanta ler_lista.
Proof. intros st. now eexists. Qed.

Lemma nunca_levanta_bind {A B} (m : M A) (k : A -> M B) :
  nunca_levanta m -> (forall a, nunca_levanta (k a)) ->
  nunca_levanta (bind m k).
Proof.
  intros Hm Hk st. unfold bind.
  destruct (Hm st) as [a Ha]. destruct (m st) as [r st'].
  simpl in Ha. subst r. apply Hk.
Qed.

(** A [try] whose handler does not raise does not raise. *)
Lemma nunca_levanta_tentar {A} (m : M A) (h : exc -> M A) :
  (forall e, nunca_levanta (h e)) -> nunca_levanta (tentar m h).
Proof.
  intros Hh st. unfold tentar.
  destruct (m st) as [[a|e] st']; [now exists a | apply Hh].
Qed.

#[local] Hint Resolve nunca_levanta_ret nunca_levanta_emit
  nunca_levanta_ler_lista : estado.

Ltac sem_excecao :=
  repeat first
    [ progress intros
    | apply nunca_levanta_tentar
    | apply nunca_levanta_bind
    | match goal with
      | |- nunca_levanta (if ?b then _ else _) => destruct b
      end
    | solve [unfold log, nova_lista; auto with estado] ].

Section SinksFatos.

Variable w : mundo.
Variable categorias : list registro.

Lemma salvar_csv_so_rastro nome : so_rastro (salvar_csv w categorias nome).
Proof. unfold salvar_csv. decompor. Qed.

Lemma salvar_excel_so_rastro nome :
  so_rastro (salvar_excel w categorias nome).
Proof. unfold salvar_excel. decompor. Qed.

Lemma salvar_postgres_so_rastro tabela modo :
  so_rastro (salvar_postgres w categorias tabela modo).
Proof. unfold salvar_postgres. decompor. Qed.

Lemma salvar_csv_nunca_levanta nome :
  nunca_levanta (salvar_csv w categorias nome).
Proof. unfold salvar_csv. sem_excecao. Qed.

Lemma salvar_excel_nunca_levanta nome :
  nunca_levanta (salvar_excel w categorias nome).
Proof. unfold salvar_excel. sem_excecao. Qed.

Lemma salvar_postgres_nunca_levanta tabela modo :
  nunca_levanta (salvar_postgres w categorias tabela modo).
Proof. unfold salvar_postgres. sem_excecao. Qed.

End SinksFatos.

Lemma nova_lista_nunca_levanta : nunca_levanta nova_lista.
Proof. intros st. now exists tt. Qed.

Lemma obter_cookie_sessao_nunca_levanta w :
  nunca_levanta (obter_cookie_sessao w).
Proof. unfold obter_cookie_sessao. sem_excecao. Qed.

Lemma extrair_nunca_levanta w :
  nunca_levanta (extrair_categorias_via_api w).
Proof.
  unfold extrair_categorias_via_api.
  apply nunca_levanta_bind; [apply nova_lista_nunca_levanta | intros _].
  apply nunca_levanta_bind;
    [apply obter_cookie_sessao_nunca_levanta | intros c].
  sem_excecao.
Qed.

Lemma main_nunca_levanta w : nunca_levanta (main w).
Proof.
  unfold main.
  apply nunca_levanta_bind; [sem_excecao | intros _].
  apply nunca_levanta_bind; [apply extrair_nunca_levanta | intros cats].
  destruct (lista_vazia cats); [sem_excecao|].
  apply nunca_levanta_bind; [apply salvar_csv_nunca_levanta | intros b1].
  apply nunca_levanta_bind; [apply salvar_excel_nunca_levanta | intros b2].
  apply nunca_levanta_bind; [apply salvar_postgres_nunca_levanta | intros b3].
  sem_excecao.
Qed.

Lemma processar_item_alheio item : alheio (processar_item item).
Proof. unfold processar_item. decompor. Qed.

Lemma processar_itens_alheio data : alheio (processar_itens data).
Proof.
  unfold processar_itens. decompor.
Qed.

Lemma iteracao_alheio w c p data : alheio (iteracao w c p data).
Proof.
  unfold iteracao, requests_get.
  destruct (1 <? p); decompor.
Qed.

Lemma paginas_loop_alheio w c ps : forall data,
  alheio (paginas_loop w c ps data).
Proof.
  induction ps as [|p resto IH]; intros data; cbn [paginas_loop].
  - apply alheio_ret.
  - apply alheio_bind; [apply iteracao_alheio | intros d; apply IH].
Qed.

Lemma extrair_alheio w : alheio (extrair_categorias_via_api w).
Proof.
  unfold extrair_categorias_via_api.
  apply alheio_bind; [apply alheio_nova_lista | intros _].
  apply alheio_bind.
  { unfold obter_cookie_sessao. decompor. }
  intros c. apply alheio_tentar; [|decompor].
  unfold extrair_corpo, requests_get.
  decompor; apply paginas_loop_alheio.
Qed.

Lemma resposta_de_ok (m : M bool) :
  so_rastro m -> nunca_levanta m ->
  forall st, fst (m st) = Ok (resposta_de (m estado_inicial)).
Proof.
  intros Hs Hn st. rewrite (Hs st). cbn [fst].
  destruct (Hn estado_inicial) as [b Hb].
  unfold resposta_de. now rewrite Hb.
Qed.

Lemma extrair_valor w st :
  todas_categorias st = [] ->
  fst (extrair_categorias_via_api w st) = Ok (categorias_extraidas w).
Proof.
  intros Ht.
  assert (Hst : st = prefixa (eventos st) estado_inicial).
  { destruct st as [t e]. simpl in Ht. subst t.
    unfold prefixa. simpl. now rewrite app_nil_r. }
  rewrite Hst, extrair_alheio. cbn [fst].
  destruct (extrair_nunca_levanta w estado_inicial) as [l Hl].
  unfold categorias_extraidas, valor. now rewrite Hl.
Qed.

(** What [main] returns, in terms of what was extracted and of the three
    answers. *)
Lemma main_valor w :
  valor (main w estado_inicial) =
    Ok (negb (lista_vazia (categorias_extraidas w)) &&
        (sucesso_csv w (categorias_extraidas w)
         || sucesso_excel w (categorias_extraidas w)
         || sucesso_postgres w (categorias_extraidas w))).
Proof.
  unfold valor, main.
  unfold bind at 1. cbn [log emit].
  unfold bind at 1.
  match goal with
  | |- context [extrair_categorias_via_api w ?st] =>
      pose proof (@extrair_valor w st eq_refl) as Hx;
      destruct (extrair_categorias_via_api w st) as [rx st1]
  end.
  cbn [fst] in Hx. subst rx.
  set (cats := categorias_extraidas w).
  destruct cats as [|c l] eqn:Hc; [reflexivity|].
  cbn [lista_vazia negb andb].
  unfold bind at 1.
  pose proof (resposta_de_ok (salvar_csv_so_rastro w (c :: l) csv_padrao)
                (salvar_csv_nunca_levanta w (c :: l) csv_padrao) st1) as H1.
  destruct (salvar_csv w (c :: l) csv_padrao st1) as [r1 st2].
  cbn [fst] in H1. subst r1.
  unfold bind at 1.
  pose proof (resposta_de_ok (salvar_excel_so_rastro w (c :: l) excel_padrao)
                (salvar_excel_nunca_levanta w (c :: l) excel_padrao) st2)
    as H2.
  destruct (salvar_excel w (c :: l) excel_padrao st2) as [r2 st3].
  cbn [fst] in H2. subst r2.
  unfold bind at 1.
  pose proof (resposta_de_ok
                (salvar_postgres_so_rastro w (c :: l) tabela_padrao
                   if_exists_padrao)
                (salvar_postgres_nunca_levanta w (c :: l) tabela_padrao
                   if_exists_padrao) st3) as H3.
  destruct (salvar_postgres w (c :: l) tabela_padrao if_exists_padrao st3)
    as [r3 st4].
  cbn [fst] in H3. subst r3.
  fold (sucesso_csv w (c :: l)) (sucesso_excel w (c :: l))
       (sucesso_postgres w (c :: l)).
  destruct (sucesso_csv w (c :: l) || sucesso_excel w (c :: l)
            || sucesso_postgres w (c :: l)); reflexivity.
Qed.

(** C8.  Each of the three writers, given the empty list, returns [False]:
    it logs its warning, writes nothing and raises nothing. *)
Theorem sinks_reject_empty w nome tabela modo st :
  salvar_csv w [] nome st =
    (Ok false, acrescenta st [Log NenhumaCategoria]) /\
  salvar_excel w [] nome st =
    (Ok false, acrescenta st [Log NenhumaCategoria]) /\
  salvar_postgres w [] tabela modo st =
    (Ok false, acrescenta st [Log NenhumaCategoriaPostgres]).
Proof. repeat split. Qed.

(** C9.  [main] returns [True] exactly when the extraction gave at least one
    row and at least one of the three writers answered [True]; it returns
    [False] exactly when the extraction gave no row or the three writers all
    answered [False]. *)
Theorem main_success_iff w :
  exists b,
    valor (main w estado_inicial) = Ok b /\
    (b = true <->
       categorias_extraidas w <> [] /\
       (sucesso_csv w (categorias_extraidas w) = true \/
        sucesso_excel w (categorias_extraidas w) = true \/
        sucesso_postgres w (categorias_extraidas w) = true)) /\
    (b = false <->
       categorias_extraidas w = [] \/
       (sucesso_csv w (categorias_extraidas w) = false /\
        sucesso_excel w (categorias_extraidas w) = false /\
        sucesso_postgres w (categorias_extraidas w) = false)).
Proof.
  eexists. split; [apply main_valor|].
  destruct (categorias_extraidas w) as [|c l]; cbn [lista_vazia negb andb].
  - split; split; intros H; try discriminate; auto.
    now destruct H.
  - destruct (sucesso_csv w (c :: l)), (sucesso_excel w (c :: l)),
      (sucesso_postgres w (c :: l)); cbn;
      (split; split; intros H; try discriminate; try reflexivity;
       [ split; [discriminate | auto]
       | destruct H as [H | (? & ? & ?)]; discriminate ])
      || (split; split; intros H; try discriminate; try reflexivity;
          [ destruct H as [_ [H | [H | H]]]; discriminate
          | right; auto ]).
Qed.

(** ** Non-200 answers *)

Lemma range_Z_1_4 : range_Z 1 (3 + 1) = [1; 2; 3].
Proof. reflexivity. Qed.

Lemma pagina2_de_3_recusada w data1 itens1 data3 itens3 total :
  pagina_aceita w 1 data1 itens1 ->
  ler_total_itens data1 = Ok total ->
  calcular_total_paginas total = Ok (NInt 3) ->
  pagina_recusada w 2 ->
  pagina_aceita w 3 data3 itens3 ->
  valor (extrair_categorias_via_api w estado_inicial) =
    Ok (registros_de itens1 ++ registros_de itens3).
Proof.
  intros (r1 & Hg1 & Hs1 & Hj1 & He1 & Hi1) Ht Hn
         (r2 & Hg2 & Hs2) (r3 & Hg3 & Hs3 & Hj3 & He3 & Hi3).
  unfold valor.
  rewrite (@primeira_boa w r1 Hg1 data1 total 3 estado_inicial
             Hs1 Hj1 He1 Ht Hn).
  rewrite range_Z_1_4, paginas_loop_cons.
  rewrite (@iteracao_primeira w (cookies_de w) data1 itens1 _ Hi1).
  rewrite paginas_loop_cons.
  rewrite (@iteracao_recusada w (cookies_de w) 2 r2 ltac:(lia) Hg2
             data1 _ Hs2).
  rewrite paginas_loop_cons.
  rewrite (@iteracao_boa w (cookies_de w) 3 r3 ltac:(lia) Hg3
             data1 data3 itens3 _ Hs3 Hj3 He3 Hi3).
  reflexivity.
Qed.

(** C5.  A status other than 200 on the first request makes the run return
    the empty list; on a later page it is logged and that page alone is
    skipped.  When page 2 of 3 is refused and pages 1 and 3 are accepted,
    the run returns the rows of page 1 followed by those of page 3; and
    whenever one of the writers answers [True], [main] returns [True]. *)
Theorem non200_first_ends_later_skips :
  (forall w r,
     api_get w (cookies_de w) 1 tamanho_pagina = Ok r ->
     status_code r <> 200 ->
     extrair_categorias_via_api w estado_inicial =
       (Ok [],
        {| todas_categorias := [];
           eventos := eventos_sessao w ++
                      [ GetApi (cookies_de w) 1 tamanho_pagina;
                        Log (ErroAcessarAPI (status_code r)) ] |})) /\
  (forall w c p r data resto st,
     1 < p ->
     api_get w c p tamanho_pagina = Ok r ->
     status_code r <> 200 ->
     paginas_loop w c (p :: resto) data st =
       paginas_loop w c resto data
         (acrescenta st [ GetApi c p tamanho_pagina;
                          Log (ErroAcessarPagina p (status_code r)) ])) /\
  (forall w data1 itens1 data3 itens3 total,
     pagina_aceita w 1 data1 itens1 ->
     ler_total_itens data1 = Ok total ->
     calcular_total_paginas total = Ok (NInt 3) ->
     pagina_recusada w 2 ->
     pagina_aceita w 3 data3 itens3 ->
     valor (extrair_categorias_via_api w estado_inicial) =
       Ok (registros_de itens1 ++ registros_de itens3)) /\
  (forall w,
     sucesso_csv w (categorias_extraidas w) = true \/
     sucesso_excel w (categorias_extraidas w) = true \/
     sucesso_postgres w (categorias_extraidas w) = true ->
     valor (main w estado_inicial) = Ok true).
Proof.
  split; [|split; [|split]].
  - intros w r Hget Hs.
    exact (@primeira_recusada w r Hget estado_inicial Hs).
  - intros w c p r data resto st Hp Hget Hs.
    rewrite paginas_loop_cons.
    now rewrite (@iteracao_recusada w c p r Hp Hget data st Hs).
  - exact pagina2_de_3_recusada.
  - intros w H. rewrite main_valor.
    destruct (categorias_extraidas w) as [|c l].
    + unfold sucesso_csv, sucesso_excel, sucesso_postgres in H.
      cbn in H. destruct H as [H | [H | H]]; discriminate.
    + cbn [lista_vazia negb andb].
      destruct H as [-> | [-> | ->]]; now rewrite ?orb_true_r.
Qed.

Lemma non200_first_ends_later_skips_witness :
  valor (extrair_categorias_via_api Exemplos.primeira_recusada_503
                                    estado_inicial) = Ok [] /\
  valor (extrair_categorias_via_api Exemplos.pagina2_recusada
                                    estado_inicial) =
    Ok (registros_de [Exemplos.roupas; Exemplos.tenis] ++
        registros_de [Exemplos.casa]) /\
  valor (main Exemplos.pagina2_recusada estado_inicial) = Ok true.
Proof.
  destruct non200_first_ends_later_skips as (H1 & _ & H3 & H4).
  split; [|split].
  - erewrite (H1 Exemplos.primeira_recusada_503);
      [reflexivity | reflexivity | simpl; lia].
  - eapply (H3 Exemplos.pagina2_recusada).
    + eexists. repeat split; reflexivity.
    + reflexivity.
    + reflexivity.
    + eexists. split; [reflexivity | simpl; lia].
    + eexists. repeat split; reflexivity.
  - apply (H4 Exemplos.pagina2_recusada). left. reflexivity.
Defined.

(** ** Every accumulated row has the seven columns *)

Lemma categoria_item_canonica item r :
  categoria_item item = Ok r -> linha_canonica r.
Proof.
  unfold categoria_item. intros H.
  repeat match type of H with
         | rbind ?x _ = Ok _ => destruct x; cbn [rbind] in H;
                                [|discriminate H]
         end.
  injection H as <-. reflexivity.
Qed.

Section Invariante.

Lemma preserva_ret {A} (G : A -> Prop) a : G a -> preserva G (ret a).
Proof. intros H st Hst. split; [exact Hst|]. now intros ? [= <-]. Qed.

Lemma preserva_lift {A} (r : result A) : preserva (fun _ => True) (lift r).
Proof. intros st Hst. now split. Qed.

Lemma preserva_lift_itens item :
  preserva linha_canonica (lift (categoria_item item)).
Proof.
  intros st Hst. split; [exact Hst|].
  intros a Ha. now apply (categoria_item_canonica item).
Qed.

Lemma preserva_emit ev : preserva (fun _ => True) (emit ev).
Proof. intros st Hst. now split. Qed.

Lemma preserva_append r :
  linha_canonica r -> preserva (fun _ => True) (append r).
Proof.
  intros Hr st Hst. split; [|trivial].
  unfold inv in *. cbn. apply Forall_app. split; [exact Hst|].
  now constructor.
Qed.

Lemma preserva_nova_lista st : inv (snd (nova_lista st)).
Proof. constructor. Qed.

Lemma preserva_ler_lista : preserva (Forall linha_canonica) ler_lista.
Proof. intros st Hst. split; [exact Hst|]. now intros ? [= <-]. Qed.

Lemma preserva_bind {A B} (G1 : A -> Prop) (G : B -> Prop)
      (m : M A) (k : A -> M B) :
  preserva G1 m -> (forall a, G1 a -> preserva G (k a)) ->
  preserva G (bind m k).
Proof.
  intros Hm Hk st Hst. unfold bind.
  destruct (Hm st Hst) as [Hi Hv].
  destruct (m st) as [[a|e] st']; cbn [fst snd] in *.
  - apply Hk; auto.
  - split; [exact Hi | discriminate].
Qed.

Lemma preserva_tentar {A} (G : A -> Prop) (m : M A) (h : exc -> M A) :
  preserva G m -> (forall e, preserva G (h e)) -> preserva G (tentar m h).
Proof.
  intros Hm Hh st Hst. unfold tentar.
  destruct (Hm st Hst) as [Hi Hv].
  destruct (m st) as [[a|e] st']; cbn [fst snd] in *.
  - split; [exact Hi | exact Hv].
  - apply Hh. exact Hi.
Qed.

Lemma preserva_fraco {A} (G : A -> Prop) (m : M A) :
  preserva G m -> preserva (fun _ => True) m.
Proof. intros H st Hst. split; [apply (H st Hst) | trivial]. Qed.

Lemma processar_item_preserva item :
  preserva (fun _ => True) (processar_item item).
Proof.
  unfold processar_item.
  apply preserva_tentar.
  - eapply preserva_bind; [apply preserva_lift_itens|].
    intros r Hr. now apply preserva_append.
  - intros e. apply preserva_emit.
Qed.

Lemma para_cada_preserva itens :
  preserva (fun _ => True) (para_cada itens processar_item).
Proof.
  induction itens as [|item resto IH]; cbn [para_cada].
  - now apply preserva_ret.
  - eapply preserva_bind; [apply processar_item_preserva|].
    intros _ _. exact IH.
Qed.

Lemma processar_itens_preserva data :
  preserva (fun _ => True) (processar_itens data).
Proof.
  unfold processar_itens.
  eapply preserva_bind; [apply preserva_lift | intros d _].
  eapply preserva_bind; [apply preserva_lift | intros cats _].
  eapply preserva_bind; [apply preserva_lift | intros itens _].
  eapply preserva_bind; [apply para_cada_preserva | intros _ _].
  apply preserva_emit.
Qed.

Variable w : mundo.

Lemma requests_get_preserva c p :
  preserva (fun _ => True) (requests_get w c p).
Proof.
  unfold requests_get.
  eapply preserva_bind; [apply preserva_emit | intros _ _].
  apply preserva_lift.
Qed.

Lemma iteracao_preserva c p data :
  preserva (fun _ => True) (iteracao w c p data).
Proof.
  unfold iteracao. destruct (1 <? p).
  - eapply preserva_bind; [apply requests_get_preserva | intros r _].
    destruct (negb (status_code r =? 200)).
    + eapply preserva_bind; [apply preserva_emit | intros _ _].
      now apply preserva_ret.
    + eapply preserva_bind; [apply preserva_lift | intros data' _].
      eapply preserva_bind; [apply preserva_lift | intros faltando _].
      destruct faltando.
      * eapply preserva_bind; [apply preserva_emit | intros _ _].
        now apply preserva_ret.
      * eapply preserva_bind; [apply processar_itens_preserva|].
        intros _ _. now apply preserva_ret.
  - eapply preserva_bind; [apply processar_itens_preserva|].
    intros _ _. now apply preserva_ret.
Qed.

Lemma paginas_loop_preserva c ps : forall data,
  preserva (fun _ => True) (paginas_loop w c ps data).
Proof.
  induction ps as [|p resto IH]; intros data; cbn [paginas_loop].
  - now apply preserva_ret.
  - eapply preserva_bind; [apply iteracao_preserva | intros d _].
    apply IH.
Qed.

Lemma extrair_corpo_preserva c :
  preserva (Forall linha_canonica) (extrair_corpo w c).
Proof.
  unfold extrair_corpo.
  eapply preserva_bind; [apply requests_get_preserva | intros r _].
  destruct (negb (status_code r =? 200)).
  { eapply preserva_bind; [apply preserva_emit | intros _ _].
    apply preserva_ret. constructor. }
  eapply preserva_bind; [apply preserva_lift | intros data _].
  eapply preserva_bind; [apply preserva_lift | intros faltando _].
  destruct faltando.
  { eapply preserva_bind; [apply preserva_emit | intros _ _].
    apply preserva_ret. constructor. }
  eapply preserva_bind; [apply preserva_lift | intros total_itens _].
  eapply preserva_bind; [apply preserva_lift | intros total_paginas _].
  eapply preserva_bind; [apply preserva_emit | intros _ _].
  eapply preserva_bind; [apply preserva_emit | intros _ _].
  eapply preserva_bind; [apply preserva_lift | intros paginas _].
  eapply preserva_bind; [apply paginas_loop_preserva | intros _ _].
  eapply preserva_bind; [apply preserva_ler_lista | intros todas Ht].
  eapply preserva_bind; [apply preserva_emit | intros _ _].
  now apply preserva_ret.
Qed.

Lemma extrair_preserva st :
  forall cats,
    fst (extrair_categorias_via_api w st) = Ok cats ->
    Forall linha_canonica cats.
Proof.
  rewrite extrair_run.
  match goal with
  | |- context [tentar ?m ?h ?s] =>
      assert (H : preserva (Forall linha_canonica) (tentar m h))
  end.
  { apply preserva_tentar.
    - apply extrair_corpo_preserva.
    - intros e.
      eapply preserva_bind; [apply preserva_emit | intros _ _].
      apply preserva_ler_lista. }
  apply H. constructor.
Qed.

End Invariante.

(** C2.  The run always returns a list, and every row of it has exactly the
    seven canonical keys, in the canonical order, whatever the source item
    held; the same goes for any single row the Flattener builds. *)
Theorem rows_have_canonical_fields :
  (forall item r,
     categoria_item item = Ok r ->
     map fst r = [ "categoria"; "subcategoria"; "3_nivel_categoria";
                   "4_nivel_categoria"; "5_nivel_categoria";
                   "id_categoria"; "imagem_categoria" ]) /\
  (forall w st,
     exists cats,
       valor (extrair_categorias_via_api w st) = Ok cats /\
       Forall (fun r => map fst r = colunas_esperadas /\
                        List.length r = 7%nat) cats).
Proof.
  split.
  - intros item r H. exact (categoria_item_canonica item H).
  - intros w st.
    destruct (extrair_nunca_levanta w st) as [cats Hc].
    exists cats. split; [exact Hc|].
    pose proof (@extrair_preserva w st cats Hc) as HF.
    eapply Forall_impl; [|exact HF].
    intros r Hr. split; [exact Hr|].
    unfold linha_canonica in Hr.
    rewrite <- (length_map fst), Hr. reflexivity.
Qed.

Lemma rows_have_canonical_fields_witness :
  map fst
      [ ("categoria", JStr "Moda"); ("subcategoria", JStr "");
        ("3_nivel_categoria", JStr ""); ("4_nivel_categoria", JStr "");
        ("5_nivel_categoria", JStr ""); ("id_categoria", JStr "");
        ("imagem_categoria", JStr "") ] = colunas_esperadas.
Proof.
  destruct rows_have_canonical_fields as [H _].
  apply (H Exemplos.sem_id). reflexivity.
Defined.

Lemma main_success_iff_witness :
  exists b,
    valor (main Exemplos.pagina2_recusada estado_inicial) = Ok b /\
    b = true.
Proof.
  destruct (main_success_iff Exemplos.pagina2_recusada)
    as (b & Hb & Ht & _).
  exists b. split; [exact Hb|].
  apply Ht. split; [discriminate | left; reflexivity].
Defined.

(** ** More on the Flattener *)

Lemma nivel_prefixo nos nomes extra i nome :
  Forall2 no_nomeado nos nomes ->
  nth_error nomes i = Some nome ->
  nivel (JArr (nos ++ extra)) i = Ok nome.
Proof.
  intros HF Hn.
  assert (Hi : (i < List.length nos)%nat).
  { rewrite (Forall2_length HF). apply nth_error_Some. congruence. }
  unfold nivel. simpl. rewrite length_app.
  destruct (Z.ltb_spec (Z.of_nat i)
              (Z.of_nat (List.length nos + List.length extra))); [|lia].
  rewrite nth_error_app1 by exact Hi.
  destruct (nth_error nos i) as [no|] eqn:Hno.
  - destruct (Forall2_nth_error_l _ HF Hno) as (b & Hb & campos & -> & Hc).
    simpl. rewrite Hc. congruence.
  - apply nth_error_None in Hno. lia.
Qed.

(** X1.  Only the first five path nodes are read: when they carry names, the
    row holds those five names whatever follows them in the path, named or
    not. *)
Theorem deep_path_truncated campos nos nomes extra imagens :
  dict_get campos "path" = Some (JArr (nos ++ extra)) ->
  List.length nos = 5%nat ->
  Forall2 no_nomeado nos nomes ->
  py_get (JObj campos) "images" (JArr []) = Ok (JArr imagens) ->
  exists r,
    categoria_item (JObj campos) = Ok r /\
    map (dict_get r) colunas_nivel = map Some nomes.
Proof.
  intros Hp Hlen HF Hi.
  assert (Hn : List.length nomes = 5%nat)
    by (rewrite <- (Forall2_length HF); exact Hlen).
  destruct nomes as [|n0 [|n1 [|n2 [|n3 [|n4 [|n5 nomes]]]]]];
    try discriminate Hn.
  unfold categoria_item.
  cbn [py_get]. rewrite Hp. cbn [rbind].
  rewrite (nivel_prefixo extra 0 HF eq_refl),
          (nivel_prefixo extra 1 HF eq_refl),
          (nivel_prefixo extra 2 HF eq_refl),
          (nivel_prefixo extra 3 HF eq_refl),
          (nivel_prefixo extra 4 HF eq_refl).
  cbn [rbind]. cbn [py_get] in Hi.
  injection Hi as Hi. rewrite Hi. rewrite primeira_imagem_lista.
  eexists. split; reflexivity.
Qed.

Lemma deep_path_truncated_witness :
  exists r,
    categoria_item
      (JObj [ ("path",
               JArr (map Exemplos.no ["A"; "B"; "C"; "D"; "E"]
                     ++ [JNull; JInt 7])) ]) = Ok r /\
    map (dict_get r) colunas_nivel =
      map Some (map JStr ["A"; "B"; "C"; "D"; "E"]).
Proof.
  eapply deep_path_truncated with (imagens := []).
  - reflexivity.
  - reflexivity.
  - repeat constructor; eexists; split; reflexivity.
  - reflexivity.
Defined.

(** X2.  A path that is absent and a path that is present but cannot be
    measured are not treated alike: with no ["path"] key the item gives a
    row of five empty levels, with a ["path"] on which [len] raises (null, a
    number, a boolean) the item raises and is skipped. *)
Theorem absent_path_versus_unmeasurable campos :
  (dict_get campos "path" = None ->
   forall imagens,
     py_get (JObj campos) "images" (JArr []) = Ok (JArr imagens) ->
     exists r,
       categoria_item (JObj campos) = Ok r /\
       map (dict_get r) colunas_nivel = repeat (Some (JStr "")) 5) /\
  (forall v e,
     dict_get campos "path" = Some v ->
     py_len v = Raise e ->
     categoria_item (JObj campos) = Raise e /\
     item_pulado (JObj campos)).
Proof.
  split.
  - intros Hp imagens Hi.
    unfold categoria_item. cbn [py_get]. rewrite Hp. cbn.
    cbn [py_get] in Hi. injection Hi as Hi. rewrite Hi.
    rewrite primeira_imagem_lista. eexists. split; reflexivity.
  - intros v e Hp He.
    assert (H : categoria_item (JObj campos) = Raise e).
    { unfold categoria_item. cbn [py_get]. rewrite Hp. cbn [rbind].
      unfold nivel at 1. rewrite He. reflexivity. }
    split; [exact H|].
    intros st. exists e. rewrite processar_item_run, H. reflexivity.
Qed.

Lemma absent_path_versus_unmeasurable_witness :
  (exists r,
     categoria_item (JObj [("category_id", JInt 5)]) = Ok r /\
     map (dict_get r) colunas_nivel = repeat (Some (JStr "")) 5) /\
  categoria_item (JObj [("category_id", JInt 5); ("path", JNull)]) =
    Raise TypeError.
Proof.
  split.
  - apply (proj1 (absent_path_versus_unmeasurable
                    [("category_id", JInt 5)]) eq_refl []).
    reflexivity.
  - apply (proj2 (absent_path_versus_unmeasurable
                    [("category_id", JInt 5); ("path", JNull)])
             JNull TypeError); reflexivity.
Defined.

(** X3.  The identifier is copied as it is, whatever JSON value it is, and
    an image entry that is present but false in a condition (null, the empty
    array, the empty string, 0, false) gives the empty image, like an absent
    one. *)
Theorem identifier_verbatim_falsy_images campos nos nomes id imagens :
  py_get (JObj campos) "path" (JArr []) = Ok (JArr nos) ->
  Forall2 no_nomeado nos nomes ->
  dict_get campos "category_id" = Some id ->
  dict_get campos "images" = Some imagens ->
  py_bool imagens = false ->
  exists r,
    categoria_item (JObj campos) = Ok r /\
    dict_get r "id_categoria" = Some id /\
    dict_get r "imagem_categoria" = Some (JStr "").
Proof.
  intros Hp HF Hid Hi Hb.
  unfold categoria_item. rewrite Hp. cbn [rbind].
  rewrite !(nivel_nomeado _ HF). cbn [rbind py_get].
  rewrite Hid, Hi. cbn [rbind].
  unfold primeira_imagem. rewrite Hb.
  eexists. split; [reflexivity|]. split; reflexivity.
Qed.

Lemma identifier_verbatim_falsy_images_witness :
  exists r,
    categoria_item
      (JObj [ ("category_id", JStr "abc"); ("images", JNull);
              ("path", JArr [Exemplos.no "Casa"]) ]) = Ok r /\
    dict_get r "id_categoria" = Some (JStr "abc") /\
    dict_get r "imagem_categoria" = Some (JStr "").
Proof.
  eapply identifier_verbatim_falsy_images
    with (nos := [Exemplos.no "Casa"]) (nomes := [JStr "Casa"]);
    try reflexivity.
  repeat constructor. eexists. split; reflexivity.
Defined.



(** ** Failures before the page loop *)

Section AntesDoLaco.

Variable w : mundo.

Lemma extrair_excecao_inicial e :
  (forall st, exists st',
     extrair_corpo w (cookies_de w) st = (Raise e, st') /\
     todas_categorias st' = todas_categorias st /\
     eventos st' = eventos st ++ [primeiro_pedido w]) ->
  extrair_categorias_via_api w estado_inicial = encerrada w e.
Proof.
  intros H. rewrite extrair_run. unfold tentar.
  match goal with
  | |- context [extrair_corpo w ?k ?st] =>
      destruct (H st) as (st' & -> & Ht & He)
  end.
  destruct st' as [t evs]. cbn in Ht, He. subst t evs.
  unfold encerrada, primeiro_pedido. cbn. now rewrite <- !app_assoc.
Qed.

(** X5.  Whatever raises before the page loop ends the run with the empty
    list, one API request and one line of the outer handler: the request
    itself, a body that is not JSON, a body of a type the key test cannot be
    applied to, or a ["data"] entry that has no [get]. *)
Theorem failure_before_loop_returns_empty e :
  (api_get w (cookies_de w) 1 tamanho_pagina = Raise e ->
   extrair_categorias_via_api w estado_inicial = encerrada w e) /\
  (forall r,
     api_get w (cookies_de w) 1 tamanho_pagina = Ok r ->
     status_code r = 200 ->
     corpo_json r = Raise e ->
     extrair_categorias_via_api w estado_inicial = encerrada w e) /\
  (forall r data,
     api_get w (cookies_de w) 1 tamanho_pagina = Ok r ->
     status_code r = 200 ->
     corpo_json r = Ok data ->
     estrutura_inesperada data = Raise e ->
     extrair_categorias_via_api w estado_inicial = encerrada w e) /\
  (forall r data,
     api_get w (cookies_de w) 1 tamanho_pagina = Ok r ->
     status_code r = 200 ->
     corpo_json r = Ok data ->
     estrutura_inesperada data = Ok false ->
     ler_total_itens data = Raise e ->
     extrair_categorias_via_api w estado_inicial = encerrada w e).
Proof.
  repeat split.
  - intros Hget. apply extrair_excecao_inicial. intros st.
    unfold extrair_corpo. unfold bind at 1.
    rewrite requests_get_run. rewrite Hget.
    eexists. repeat split.
  - intros r Hget Hs Hj. apply extrair_excecao_inicial. intros st.
    unfold extrair_corpo. unfold bind at 1.
    rewrite requests_get_run. rewrite Hget, Hs.
    cbn [Z.eqb Pos.eqb negb]. unfold bind, lift. rewrite Hj.
    eexists. repeat split.
  - intros r data Hget Hs Hj He. apply extrair_excecao_inicial. intros st.
    unfold extrair_corpo. unfold bind at 1.
    rewrite requests_get_run. rewrite Hget, Hs.
    cbn [Z.eqb Pos.eqb negb]. unfold bind, lift. rewrite Hj, He.
    eexists. repeat split.
  - intros r data Hget Hs Hj He Ht. apply extrair_excecao_inicial.
    intros st.
    unfold extrair_corpo. unfold bind at 1.
    rewrite requests_get_run. rewrite Hget, Hs.
    cbn [Z.eqb Pos.eqb negb]. unfold bind, lift. rewrite Hj, He, Ht.
    eexists. repeat split.
Qed.

(** X6.  A declared total that is neither an integer nor a boolean ends the
    run with the empty list after one request, through the outer handler
    with a [TypeError]: null, a string, an array or an object at the
    addition of line 110, a float at the [range] of line 116. *)
Theorem non_integer_total_returns_empty r data total :
  api_get w (cookies_de w) 1 tamanho_pagina = Ok r ->
  status_code r = 200 ->
  corpo_json r = Ok data ->
  estrutura_inesperada data = Ok false ->
  ler_total_itens data = Ok total ->
  (forall z, total <> JInt z) ->
  (forall b, total <> JBool b) ->
  valor (extrair_categorias_via_api w estado_inicial) = Ok [] /\
  paginas_pedidas (rastro (extrair_categorias_via_api w estado_inicial))
    = [1] /\
  In (Log (ErroNaoTratado TypeError))
     (rastro (extrair_categorias_via_api w estado_inicial)).
Proof.
  intros Hget Hs Hj He Ht Hz Hb.
  assert (Hrun : exists evs,
             extrair_categorias_via_api w estado_inicial =
               (Ok [],
                {| todas_categorias := [];
                   eventos := eventos_sessao w ++ primeiro_pedido w :: evs ++
                              [Log (ErroNaoTratado TypeError)] |}) /\
             paginas_pedidas evs = []).
  { rewrite extrair_run. unfold tentar, extrair_corpo.
    unfold bind at 1. rewrite requests_get_run. rewrite Hget, Hs.
    cbn [Z.eqb Pos.eqb negb]. unfold bind, lift. rewrite Hj, He, Ht.
    destruct total as [| b | z | f | s | l | kvs];
      try (exfalso; eapply Hz; reflexivity);
      try (exfalso; eapply Hb; reflexivity);
      cbn;
      try (exists []; split; [now rewrite <- !app_assoc | reflexivity]).
    exists [Log (TotalItens (JFloat f)); Log (TotalPaginas NFloat)].
    split; [now rewrite <- !app_assoc | reflexivity]. }
  destruct Hrun as (evs & -> & Hevs).
  destruct (eventos_sessao_quietos w) as [_ Hps].
  unfold valor, rastro. cbn [fst snd eventos].
  repeat split.
  - rewrite paginas_pedidas_app, Hps. cbn.
    rewrite paginas_pedidas_app, Hevs. reflexivity.
  - rewrite in_app_iff. right. right. rewrite in_app_iff. right.
    now left.
Qed.

(** X7.  A declared integer total of 0 or less gives no page to loop over:
    the run returns the empty list after its single request and logs 0
    extracted categories, whatever the first page holds. *)
Theorem non_positive_total_returns_empty r data t :
  api_get w (cookies_de w) 1 tamanho_pagina = Ok r ->
  status_code r = 200 ->
  corpo_json r = Ok data ->
  estrutura_inesperada data = Ok false ->
  ler_total_itens data = Ok (JInt t) ->
  t <= 0 ->
  extrair_categorias_via_api w estado_inicial =
    (Ok [],
     {| todas_categorias := [];
        eventos := eventos_sessao w ++
                   [ primeiro_pedido w;
                     Log (TotalItens (JInt t));
                     Log (TotalPaginas
                            (NInt ((t + tamanho_pagina - 1) / tamanho_pagina)));
                     Log (TotalExtraidas 0) ] |}).
Proof.
  intros Hget Hs Hj He Ht Hle.
  rewrite (@primeira_boa w r Hget data (JInt t)
             ((t + tamanho_pagina - 1) / tamanho_pagina) estado_inicial
             Hs Hj He Ht (calcular_total_paginas_int t)).
  assert (Hn : (t + tamanho_pagina - 1) / tamanho_pagina <= 0).
  { unfold tamanho_pagina.
    pose proof (Z.div_mod (t + 100 - 1) 100 ltac:(lia)).
    pose proof (Z.mod_pos_bound (t + 100 - 1) 100 ltac:(lia)).
    lia. }
  unfold range_Z.
  replace (Z.to_nat ((t + tamanho_pagina - 1) / tamanho_pagina + 1 - 1))
    with 0%nat by lia.
  cbn. unfold acrescenta. cbn. now rewrite <- !app_assoc.
Qed.

End AntesDoLaco.

Lemma failure_before_loop_returns_empty_witness :
  extrair_categorias_via_api Exemplos.sem_rede estado_inicial =
    encerrada Exemplos.sem_rede RequestException.
Proof.
  apply (proj1 (failure_before_loop_returns_empty
                  Exemplos.sem_rede RequestException)).
  reflexivity.
Defined.

Lemma non_integer_total_returns_empty_witness :
  valor (extrair_categorias_via_api Exemplos.total_nulo estado_inicial)
    = Ok [] /\
  paginas_pedidas
    (rastro (extrair_categorias_via_api Exemplos.total_nulo estado_inicial))
    = [1] /\
  In (Log (ErroNaoTratado TypeError))
     (rastro (extrair_categorias_via_api Exemplos.total_nulo
                                         estado_inicial)).
Proof.
  eapply (@non_integer_total_returns_empty Exemplos.total_nulo);
    try reflexivity; discriminate.
Defined.

Lemma non_positive_total_returns_empty_witness :
  valor (extrair_categorias_via_api Exemplos.total_negativo estado_inicial)
    = Ok [].
Proof.
  erewrite (@non_positive_total_returns_empty Exemplos.total_negativo);
    try reflexivity.
  lia.
Defined.

(** ** What a run may leave in the trace *)

Section Emite.

Variable P : evento -> Prop.

Lemma emite_ret {A} (a : A) : emite P (ret a).
Proof. intros st. exists []. cbn. now rewrite app_nil_r. Qed.

Lemma emite_lift {A} (r : result A) : emite P (lift r).
Proof. intros st. exists []. cbn. now rewrite app_nil_r. Qed.

Lemma emite_emit ev : P ev -> emite P (emit ev).
Proof. intros H st. exists [ev]. cbn. split; [reflexivity | now constructor]. Qed.

Lemma emite_append r : emite P (append r).
Proof. intros st. exists []. cbn. now rewrite app_nil_r. Qed.

Lemma emite_nova_lista : emite P nova_lista.
Proof. intros st. exists []. cbn. now rewrite app_nil_r. Qed.

Lemma emite_ler_lista : emite P ler_lista.
Proof. intros st. exists []. cbn. now rewrite app_nil_r. Qed.

Lemma emite_bind {A B} (m : M A) (k : A -> M B) :
  emite P m -> (forall a, emite P (k a)) -> emite P (bind m k).
Proof.
  intros Hm Hk st. unfold bind.
  destruct (Hm st) as (e1 & He1 & HP1).
  destruct (m st) as [[a|e] st1]; cbn [snd] in *.
  - destruct (Hk a st1) as (e2 & He2 & HP2).
    exists (e1 ++ e2). rewrite He2, He1, app_assoc.
    split; [reflexivity | now apply Forall_app].
  - now exists e1.
Qed.

Lemma emite_tentar {A} (m : M A) (h : exc -> M A) :
  emite P m -> (forall e, emite P (h e)) -> emite P (tentar m h).
Proof.
  intros Hm Hh st. unfold tentar.
  destruct (Hm st) as (e1 & He1 & HP1).
  destruct (m st) as [[a|e] st1]; cbn [snd] in *.
  - now exists e1.
  - destruct (Hh e st1) as (e2 & He2 & HP2).
    exists (e1 ++ e2). rewrite He2, He1, app_assoc.
    split; [reflexivity | now apply Forall_app].
Qed.

Lemma emite_para_cada {A} (f : A -> M unit) l :
  (forall a, emite P (f a)) -> emite P (para_cada l f).
Proof.
  intros Hf. induction l as [|a l IH]; cbn [para_cada].
  - apply emite_ret.
  - apply emite_bind; [apply Hf | intros _; exact IH].
Qed.

End Emite.

Ltac so_emite :=
  repeat first
    [ progress intros
    | apply emite_bind | apply emite_tentar | apply emite_para_cada
    | apply emite_ret | apply emite_lift | apply emite_append
    | apply emite_nova_lista | apply emite_ler_lista
    | apply emite_emit; cbn; solve [auto]
    | match goal with
      | |- emite _ (if ?b then _ else _) => destruct b
      end ].

Lemma paginas_loop_emite w c ps : forall data,
  emite (evento_de_extracao c) (paginas_loop w c ps data).
Proof.
  induction ps as [|p resto IH]; intros data; cbn [paginas_loop].
  - apply emite_ret.
  - apply emite_bind; [|intros d; apply IH].
    unfold iteracao, requests_get, processar_itens, processar_item, log.
    so_emite.
Qed.

Lemma extrair_emite w :
  emite (evento_de_extracao (cookies_de w)) (extrair_categorias_via_api w).
Proof.
  intros st. rewrite extrair_run.
  match goal with
  | |- context [tentar ?m ?h ?s] =>
      assert (H : emite (evento_de_extracao (cookies_de w)) (tentar m h))
  end.
  { apply emite_tentar; [|unfold log; so_emite].
    unfold extrair_corpo, requests_get, log.
    so_emite. apply paginas_loop_emite. }
  match goal with
  | |- context [tentar ?m ?h ?s] => destruct (H s) as (evs & He & HP)
  end.
  cbn [eventos] in He.
  exists (eventos_sessao w ++ evs). rewrite He, app_assoc.
  split; [reflexivity|]. apply Forall_app. split; [|exact HP].
  unfold eventos_sessao.
  destruct (sessao_get w) as [[s k]|e]; [destruct (s =? 200)|];
    repeat constructor.
Qed.

(** X8.  An extraction writes nothing, and every API request of the run
    carries the cookies the session bootstrap returned and the page size
    100. *)
Theorem extraction_requests_uniform w :
  Forall (evento_de_extracao (cookies_de w))
         (rastro (extrair_categorias_via_api w estado_inicial)) /\
  forall k p size,
    In (GetApi k p size)
       (rastro (extrair_categorias_via_api w estado_inicial)) ->
    k = cookies_de w /\ size = 100.
Proof.
  assert (H : Forall (evento_de_extracao (cookies_de w))
                (rastro (extrair_categorias_via_api w estado_inicial))).
  { destruct (extrair_emite w estado_inicial) as (evs & He & HP).
    unfold rastro. now rewrite He. }
  split; [exact H|].
  intros k p size Hin.
  rewrite Forall_forall in H. exact (H _ Hin).
Qed.

Lemma extraction_requests_uniform_witness :
  In (GetApi [("SPC_F", "x")] 2 100)
     (rastro (extrair_categorias_via_api Exemplos.tres_paginas
                                         estado_inicial)) /\
  [("SPC_F", "x")] = cookies_de Exemplos.tres_paginas.
Proof.
  assert (H : In (GetApi [("SPC_F", "x")] 2 100)
                (rastro (extrair_categorias_via_api Exemplos.tres_paginas
                                                    estado_inicial))).
  { vm_compute. auto 10. }
  split; [exact H|].
  exact (proj1 (proj2 (extraction_requests_uniform Exemplos.tres_paginas)
                  _ _ _ H)).
Defined.

(** ** The pages a run asks for *)

Lemma range_Z_nil a b : b <= a -> range_Z a b = [].
Proof.
  intros H. unfold range_Z. now replace (Z.to_nat (b - a)) with 0%nat by lia.
Qed.

Lemma range_Z_cons a b : a < b -> range_Z a b = a :: range_Z (a + 1) b.
Proof.
  intros H. unfold range_Z.
  replace (Z.to_nat (b - a)) with (S (Z.to_nat (b - (a + 1)))) by lia.
  cbn [seq map]. f_equal; [lia|].
  rewrite <- seq_shift, map_map. apply map_ext. intros k. lia.
Qed.

Lemma range_Z_In a b x : In x (range_Z a b) -> a <= x < b.
Proof.
  unfold range_Z. rewrite in_map_iff. intros (k & <- & Hk).
  apply in_seq in Hk. lia.
Qed.

Lemma range_Z_prefixo p : forall a b r,
  range_Z a b = p ++ r -> p = range_Z a (a + Z.of_nat (List.length p)).
Proof.
  induction p as [|x p IH]; intros a b r H.
  - cbn. now rewrite range_Z_nil by lia.
  - destruct (Z.lt_ge_cases a b) as [Hab | Hab].
    + rewrite (range_Z_cons Hab) in H. cbn [app] in H.
      injection H as <- H.
      rewrite (range_Z_cons (b := a + Z.of_nat (List.length (a :: p))))
        by (cbn [List.length]; lia).
      f_equal. rewrite (IH _ _ _ H) at 1. f_equal.
      cbn [List.length]. lia.
    + rewrite range_Z_nil in H by lia. discriminate H.
Qed.

Lemma filter_todos {A} (f : A -> bool) l :
  (forall x, In x l -> f x = true) -> filter f l = l.
Proof.
  induction l as [|x l IH]; intros H; [reflexivity|].
  cbn [filter]. rewrite (H x (or_introl eq_refl)).
  f_equal. apply IH. intros y Hy. apply H. now right.
Qed.

Lemma filter_range_Z_1 b : filter (Z.ltb 1) (range_Z 1 b) = range_Z 2 b.
Proof.
  destruct (Z.lt_ge_cases 1 b) as [H | H].
  - rewrite (range_Z_cons H). cbn [filter Z.ltb Z.compare Pos.compare].
    change (1 <? 1) with false. cbv iota.
    apply filter_todos. intros x Hx.
    apply range_Z_In in Hx. apply Z.ltb_lt. lia.
  - now rewrite !range_Z_nil by lia.
Qed.

(** The requests of any run: page 1, then an initial part of the pages after
    the first that the declared total gives. *)
Lemma extrair_pedidos_geral w :
  exists ps n resto,
    paginas_pedidas (rastro (extrair_categorias_via_api w estado_inicial))
      = 1 :: ps /\
    filter (Z.ltb 1) (range_Z 1 (n + 1)) = ps ++ resto.
Proof.
  destruct (eventos_sessao_quietos w) as [_ Hps].
  rewrite extrair_run. unfold tentar, extrair_corpo.
  unfold bind at 1. rewrite requests_get_run.
  assert (Hfim : forall evs,
             paginas_pedidas evs = [] ->
             exists ps n resto,
               paginas_pedidas
                 (eventos_sessao w ++ primeiro_pedido w :: evs) = 1 :: ps /\
               filter (Z.ltb 1) (range_Z 1 (n + 1)) = ps ++ resto).
  { intros evs Hevs. exists [], 0, [].
    rewrite paginas_pedidas_app, Hps. unfold paginas_pedidas in *.
    cbn. now rewrite Hevs. }
  unfold rastro.
  destruct (api_get w (cookies_de w) 1 tamanho_pagina) as [r|e];
    [|cbn; rewrite <- !app_assoc; now apply (Hfim [_])].
  destruct (status_code r =? 200); cbn [negb];
    [|cbn; rewrite <- !app_assoc; now apply (Hfim [_])].
  unfold bind, lift.
  destruct (corpo_json r) as [data|e];
    [|cbn; rewrite <- !app_assoc; now apply (Hfim [_])].
  destruct (estrutura_inesperada data) as [[|]|e];
    [ cbn; rewrite <- !app_assoc; now apply (Hfim [_])
    | | cbn; rewrite <- !app_assoc; now apply (Hfim [_]) ].
  destruct (ler_total_itens data) as [total|e];
    [|cbn; rewrite <- !app_assoc; now apply (Hfim [_])].
  destruct (calcular_total_paginas total) as [[n|]|e];
    [ | cbn; rewrite <- !app_assoc; now apply (Hfim [_; _; _])
      | cbn; rewrite <- !app_assoc; now apply (Hfim [_]) ].
  cbn [py_range num_add log emit].
  match goal with
  | |- context [paginas_loop w ?c ?ps ?d ?st] =>
      destruct (paginas_loop_pedidos w c ps d st)
        as (evs & Hev & _ & [resto Hpre] & _);
      destruct (paginas_loop w c ps d st) as [[u|e] st']
  end; unfold estado_inicial in Hev;
    cbn [snd eventos acrescenta app] in Hev;
    unfold ler_lista, ret;
    cbn [fst snd eventos todas_categorias acrescenta];
    rewrite Hev;
    exists (paginas_pedidas evs), n, resto;
    (split; [|exact Hpre]);
    rewrite !paginas_pedidas_app, Hps; unfold paginas_pedidas; cbn;
    now rewrite app_nil_r.
Qed.

(** X9.  The pages a run requests are consecutive from page 1, each once
    and in increasing order: they are the pages [1..k] for some [k >= 1],
    whatever the API answers. *)
Theorem requests_are_consecutive_pages w :
  exists k,
    1 <= k /\
    paginas_pedidas (rastro (extrair_categorias_via_api w estado_inicial))
      = range_Z 1 (k + 1).
Proof.
  destruct (extrair_pedidos_geral w) as (ps & n & resto & Hp & Hpre).
  rewrite filter_range_Z_1 in Hpre.
  apply range_Z_prefixo in Hpre.
  exists (1 + Z.of_nat (List.length ps)). split; [lia|].
  rewrite Hp, (range_Z_cons (a := 1)) by lia.
  f_equal. rewrite Hpre at 1. f_equal. lia.
Qed.

(** ** The rows of a run, page by page *)














(** ** The frame the writers build (lines 187-201) *)

Lemma existsb_eqb_In x l : existsb (String.eqb x) l = true <-> In x l.
Proof.
  rewrite existsb_exists. split.
  - intros (y & Hy & He). apply String.eqb_eq in He. now subst.
  - intros H. exists x. split; [exact H | apply String.eqb_refl].
Qed.

Lemma tem_chave_In r c : tem_chave r c = true <-> In c (map fst r).
Proof.
  unfold tem_chave. induction r as [|[k v] r IH]; cbn [dict_get map fst].
  - split; [discriminate | intros []].
  - destruct (String.eqb_spec c k) as [-> | Hne].
    + split; [now left | reflexivity].
    + rewrite IH. split; [now right | intros [H | H]; congruence].
Qed.

Lemma alguma_tem_In categorias c :
  existsb (fun r => tem_chave r c) categorias = true <->
  In c (nodup string_dec (flat_map dict_keys categorias)).
Proof.
  rewrite nodup_In, in_flat_map, existsb_exists.
  split; intros (r & Hr & H); exists r; (split; [exact Hr|]).
  - unfold dict_keys. rewrite nodup_In. now apply tem_chave_In.
  - unfold dict_keys in H. rewrite nodup_In in H. now apply tem_chave_In.
Qed.

Lemma pd_DataFrame_tabela categorias :
  pd_DataFrame categorias =
    tabela (nodup string_dec (flat_map dict_keys categorias))
           (map celula_bruta categorias).
Proof. unfold pd_DataFrame, tabela. now rewrite map_map. Qed.

Lemma celula_de_tabela cols f c :
  In c cols -> celula_de (map (fun x => (x, f x)) cols) c = Some (f c).
Proof.
  induction cols as [|k cols IH]; intros H; [destruct H|].
  cbn [map celula_de].
  destruct (String.eqb_spec c k) as [-> | Hne]; [reflexivity|].
  apply IH. destruct H as [H | H]; [congruence | exact H].
Qed.

Lemma nova_coluna_tabela cols novas fs c :
  ~ In c (cols ++ novas) ->
  nova_coluna (tabela (cols ++ novas) (map (sobre novas) fs)) c =
    tabela (cols ++ novas ++ [c]) (map (sobre (novas ++ [c])) fs).
Proof.
  intros Hc. unfold nova_coluna, tabela. cbn [columns linhas].
  rewrite <- app_assoc. f_equal.
  rewrite !map_map. apply map_ext. intros f.
  rewrite (app_assoc cols novas [c]).
  rewrite (map_app _ (cols ++ novas) [c]). cbn [map]. f_equal.
  - apply map_ext_in. intros x Hx. f_equal. unfold sobre.
    rewrite existsb_app. cbn [existsb]. rewrite orb_false_r.
    destruct (String.eqb_spec x c) as [-> | _]; [contradiction|].
    now rewrite orb_false_r.
  - unfold sobre. rewrite existsb_app. cbn [existsb].
    now rewrite String.eqb_refl, orb_true_r.
Qed.

Lemma garantir_colunas_crescem y l : forall d,
  In y (columns d) -> In y (columns (fold_left garantir_coluna l d)).
Proof.
  induction l as [|z l IH]; intros d Hd; [exact Hd|].
  cbn [fold_left]. apply IH. unfold garantir_coluna.
  destruct (negb (tem_coluna d z)); [|exact Hd].
  cbn. apply in_or_app. now left.
Qed.

(** The loop of lines 196-198 adds, after the columns [cols] of the frame,
    the expected columns that are not among them. *)
Lemma garantir_colunas_tabela cols fs esperadas : forall novas,
  (forall x, In x novas -> ~ In x cols) ->
  exists novas',
    fold_left garantir_coluna esperadas
              (tabela (cols ++ novas) (map (sobre novas) fs)) =
      tabela (cols ++ novas') (map (sobre novas') fs) /\
    (forall x, In x novas' -> ~ In x cols) /\
    (forall x, In x esperadas -> In x (cols ++ novas')).
Proof.
  induction esperadas as [|c esperadas IH]; intros novas Hn.
  - exists novas. repeat split; [exact Hn | intros x []].
  - cbn [fold_left]. unfold garantir_coluna at 2.
    unfold tem_coluna. cbn [tabela columns].
    destruct (existsb (String.eqb c) (cols ++ novas)) eqn:Hc; cbn [negb].
    + apply existsb_eqb_In in Hc.
      fold (tabela (cols ++ novas) (map (sobre novas) fs)).
      destruct (IH novas Hn) as (novas' & Hf & Hd & Hin).
      exists novas'. repeat split; trivial.
      intros x [<- | Hx]; [|now apply Hin].
      pose proof (garantir_colunas_crescem c esperadas
                    (tabela (cols ++ novas) (map (sobre novas) fs)) Hc)
        as Hg.
      now rewrite Hf in Hg.
    + assert (Hnot : ~ In c (cols ++ novas)).
      { intros H. apply existsb_eqb_In in H. congruence. }
      fold (tabela (cols ++ novas) (map (sobre novas) fs)).
      rewrite (@nova_coluna_tabela cols novas fs c Hnot).
      destruct (IH (novas ++ [c])) as (novas' & Hf & Hd & Hin).
      { intros x Hx. apply in_app_or in Hx.
        destruct Hx as [Hx | [<- | []]]; [now apply Hn|].
        intros H. apply Hnot. apply in_or_app. now left. }
      exists novas'. repeat split; trivial.
      intros x [<- | Hx]; [|now apply Hin].
      assert (Hx : In c (columns (tabela (cols ++ novas ++ [c])
                                         (map (sobre (novas ++ [c])) fs)))).
      { cbn. rewrite !in_app_iff. cbn. auto. }
      apply (garantir_colunas_crescem c esperadas) in Hx.
      now rewrite Hf in Hx.
Qed.

Lemma selecionar_linha_tabela cols f esperadas :
  (forall x, In x esperadas -> In x cols) ->
  selecionar_linha (map (fun x => (x, f x)) cols) esperadas =
    Ok (map (fun x => (x, f x)) esperadas).
Proof.
  induction esperadas as [|c esperadas IH]; intros H; [reflexivity|].
  cbn [selecionar_linha map].
  rewrite celula_de_tabela by (apply H; now left).
  rewrite IH by (intros x Hx; apply H; now right).
  reflexivity.
Qed.

Lemma selecionar_linhas_tabela cols fs esperadas :
  (forall x, In x esperadas -> In x cols) ->
  selecionar_linhas
    (map (fun f => map (fun x => (x, f x)) cols) fs) esperadas =
    Ok (map (fun f : string -> celula =>
               map (fun x => (x, f x)) esperadas) fs).
Proof.
  intros H. induction fs as [|f fs IH]; [reflexivity|].
  cbn [map selecionar_linhas].
  rewrite (@selecionar_linha_tabela cols f esperadas H), IH. reflexivity.
Qed.

Lemma selecionar_tabela cols fs esperadas :
  (forall x, In x esperadas -> In x cols) ->
  selecionar (tabela cols fs) esperadas = Ok (tabela esperadas fs).
Proof.
  intros H. unfold selecionar.
  assert (Hf : forallb (tem_coluna (tabela cols fs)) esperadas = true).
  { apply forallb_forall. intros x Hx. unfold tem_coluna. cbn.
    apply existsb_eqb_In. now apply H. }
  rewrite Hf. unfold tabela. cbn [linhas].
  now rewrite (@selecionar_linhas_tabela cols fs esperadas H).
Qed.

(** Lines 187-201 as one function of the rows. *)
Lemma preparar_quadro categorias :
  preparar categorias = Ok (quadro_preparado categorias).
Proof.
  unfold preparar. rewrite pd_DataFrame_tabela.
  set (cols := nodup string_dec (flat_map dict_keys categorias)).
  set (fs := map celula_bruta categorias).
  destruct (@garantir_colunas_tabela cols fs colunas_esperadas [])
    as (novas & Hf & Hd & Hin); [intros x []|].
  rewrite app_nil_r in Hf.
  change (map (sobre []) fs) with (map (fun f : string -> celula => f) fs)
    in Hf.
  rewrite map_id in Hf. cbv zeta. rewrite Hf.
  rewrite (@selecionar_tabela _ _ _ Hin). f_equal.
  unfold tabela, quadro_preparado. f_equal.
  subst fs. rewrite !map_map. apply map_ext_in. intros r Hr.
  apply map_ext_in. intros c Hc. f_equal.
  unfold sobre, celula_bruta, celula_preparada.
  destruct (existsb (String.eqb c) novas) eqn:Hn.
  - apply existsb_eqb_In in Hn. apply Hd in Hn.
    assert (Hex : existsb (fun r' => tem_chave r' c) categorias = false).
    { destruct (existsb _ categorias) eqn:E; [|reflexivity].
      apply alguma_tem_In in E. contradiction. }
    rewrite Hex.
    assert (Hr' : tem_chave r c = false).
    { destruct (tem_chave r c) eqn:E; [|reflexivity].
      assert (existsb (fun r' => tem_chave r' c) categorias = true)
        by (apply existsb_exists; eauto).
      congruence. }
    unfold tem_chave in Hr'. now destruct (dict_get r c).
  - assert (Hcol : In c cols).
    { specialize (Hin c Hc). apply in_app_or in Hin.
      destruct Hin as [H | H]; [exact H|].
      apply existsb_eqb_In in H. congruence. }
    apply alguma_tem_In in Hcol. now rewrite Hcol.
Qed.





(** ** When a writer answers [True] *)

Lemma serie_tabela {R} (g : R -> string -> celula) cols c rs :
  In c cols ->
  serie (map (fun r => map (fun x => (x, g r x)) cols) rs) c =
    Ok (map (fun r => g r c) rs).
Proof.
  intros Hc. induction rs as [|r rs IH]; [reflexivity|].
  cbn [map serie].
  rewrite (@celula_de_tabela cols (g r) c Hc), IH. reflexivity.
Qed.

Lemma serie_quadro categorias c :
  In c colunas_esperadas ->
  serie (linhas (quadro_preparado categorias)) c =
    Ok (coluna_preparada categorias c).
Proof.
  intros Hc. unfold quadro_preparado, coluna_preparada. cbn [linhas].
  now apply (serie_tabela (celula_preparada categorias)).
Qed.

Section Escritores.

Variable w : mundo.
Variable categorias : list registro.

Lemma salvar_excel_resposta nome st :
  fst (salvar_excel w categorias nome st) =
    Ok (negb (lista_vazia categorias) &&
        sem_erro (to_excel w nome (quadro_preparado categorias))).
Proof.
  unfold salvar_excel, tentar, bind, lift, log, emit, ret.
  destruct (lista_vazia categorias); [reflexivity|].
  rewrite preparar_quadro.
  destruct (to_excel w nome (quadro_preparado categorias)) as [[]|e];
    reflexivity.
Qed.

Lemma salvar_postgres_resposta tabela modo st :
  fst (salvar_postgres w categorias tabela modo st) =
    Ok (negb (lista_vazia categorias) &&
        sem_erro (to_sql w tabela modo (quadro_preparado categorias))).
Proof.
  unfold salvar_postgres, tentar, bind, lift, log, emit, ret.
  destruct (lista_vazia categorias); [reflexivity|].
  rewrite preparar_quadro.
  destruct (to_sql w tabela modo (quadro_preparado categorias)) as [[]|e];
    reflexivity.
Qed.

Lemma salvar_csv_resposta nome st :
  fst (salvar_csv w categorias nome st) =
    Ok (negb (lista_vazia categorias) &&
        sem_erro (to_csv w nome (quadro_preparado categorias)) &&
        sem_erro (nunique w (coluna_preparada categorias "categoria")) &&
        sem_erro (nunique w (coluna_preparada categorias "subcategoria"))).
Proof.
  unfold salvar_csv, tentar, bind, lift, log, emit, ret.
  destruct (lista_vazia categorias); [reflexivity|].
  rewrite preparar_quadro.
  destruct (to_csv w nome (quadro_preparado categorias)) as [[]|e];
    [|reflexivity].
  rewrite !serie_quadro by (cbn; auto 10).
  cbn [sem_erro andb negb].
  destruct (nunique w (coluna_preparada categorias "categoria"));
    [|reflexivity].
  destruct (nunique w (coluna_preparada categorias "subcategoria"));
    reflexivity.
Qed.

End Escritores.

Lemma sem_erro_unit (r : result unit) : sem_erro r = true <-> r = Ok tt.
Proof. destruct r as [[]|e]; split; intros H; trivial; discriminate. Qed.

Lemma sem_erro_existe {A} (r : result A) :
  sem_erro r = true <-> exists a, r = Ok a.
Proof.
  destruct r as [a|e]; split; intros H; trivial.
  - now exists a.
  - discriminate.
  - destruct H as [a H]. discriminate.
Qed.

Lemma lista_vazia_falso {A} (l : list A) :
  negb (lista_vazia l) = true <-> l <> [].
Proof. destruct l; split; intros H; trivial; try discriminate. now elim H. Qed.

(** X15.  A writer answers [True] exactly when it was given at least one
    row and nothing raised after that: the write for the spreadsheet and
    the table; the write and then the two distinct-value counts of the
    statistics lines for the CSV file. *)
Theorem writer_success_conditions w categorias nome tabela modo st :
  (fst (salvar_csv w categorias nome st) = Ok true <->
     categorias <> [] /\
     to_csv w nome (quadro_preparado categorias) = Ok tt /\
     (exists n, nunique w (coluna_preparada categorias "categoria")
                = Ok n) /\
     (exists n, nunique w (coluna_preparada categorias "subcategoria")
                = Ok n)) /\
  (fst (salvar_excel w categorias nome st) = Ok true <->
     categorias <> [] /\
     to_excel w nome (quadro_preparado categorias) = Ok tt) /\
  (fst (salvar_postgres w categorias tabela modo st) = Ok true <->
     categorias <> [] /\
     to_sql w tabela modo (quadro_preparado categorias) = Ok tt).
Proof.
  rewrite salvar_csv_resposta, salvar_excel_resposta,
    salvar_postgres_resposta.
  split; [|split].
  - split.
    + intros [= H]. rewrite !andb_true_iff in H.
      destruct H as [[[H1 H2] H3] H4].
      apply lista_vazia_falso in H1. apply sem_erro_unit in H2.
      apply sem_erro_existe in H3. apply sem_erro_existe in H4.
      auto.
    + intros (H1 & H2 & H3 & H4).
      apply lista_vazia_falso in H1. apply sem_erro_unit in H2.
      apply sem_erro_existe in H3. apply sem_erro_existe in H4.
      now rewrite H1, H2, H3, H4.
  - split.
    + intros [= H]. rewrite andb_true_iff in H. destruct H as [H1 H2].
      apply lista_vazia_falso in H1. apply sem_erro_unit in H2. auto.
    + intros (H1 & H2).
      apply lista_vazia_falso in H1. apply sem_erro_unit in H2.
      now rewrite H1, H2.
  - split.
    + intros [= H]. rewrite andb_true_iff in H. destruct H as [H1 H2].
      apply lista_vazia_falso in H1. apply sem_erro_unit in H2. auto.
    + intros (H1 & H2).
      apply lista_vazia_falso in H1. apply sem_erro_unit in H2.
      now rewrite H1, H2.
Qed.

(** ** The trace of [main] *)

Section InicioDasEscritas.

Variable w : mundo.
Variable categorias : list registro.
Hypothesis Hcats : lista_vazia categorias = false.




End InicioDasEscritas.

(** The trace of [main]: its first line, the trace of the extraction, then
    the empty-extraction line or the traces of the three writers and the
    closing line. *)
Lemma main_rastro w :
  rastro (main w estado_inicial) =
    Log Iniciando ::
    rastro (extrair_categorias_via_api w estado_inicial) ++ cauda_main w.
Proof.
  unfold rastro at 1. unfold main.
  unfold bind at 1. cbn [log emit].
  change {| todas_categorias := todas_categorias estado_inicial;
            eventos := eventos estado_inicial ++ [Log Iniciando] |}
    with (prefixa [Log Iniciando] estado_inicial).
  unfold bind at 1. rewrite extrair_alheio.
  pose proof (@extrair_valor w estado_inicial eq_refl) as Hx.
  rewrite Hx. unfold cauda_main.
  set (cats := categorias_extraidas w).
  set (st0 := snd (extrair_categorias_via_api w estado_inicial)).
  destruct (lista_vazia cats) eqn:E.
  - unfold rastro, log, emit, ret, bind. fold st0.
    cbn [fst snd eventos prefixa app todas_categorias]. reflexivity.
  - unfold bind at 1.
    rewrite (salvar_csv_so_rastro w cats csv_padrao).
    rewrite (resposta_de_ok (salvar_csv_so_rastro w cats csv_padrao)
               (salvar_csv_nunca_levanta w cats csv_padrao)).
    unfold bind at 1.
    rewrite (salvar_excel_so_rastro w cats excel_padrao).
    rewrite (resposta_de_ok (salvar_excel_so_rastro w cats excel_padrao)
               (salvar_excel_nunca_levanta w cats excel_padrao)).
    unfold bind at 1.
    rewrite (salvar_postgres_so_rastro w cats tabela_padrao
               if_exists_padrao).
    rewrite (resposta_de_ok
               (salvar_postgres_so_rastro w cats tabela_padrao
                  if_exists_padrao)
               (salvar_postgres_nunca_levanta w cats tabela_padrao
                  if_exists_padrao)).
    fold (sucesso_csv w cats) (sucesso_excel w cats)
         (sucesso_postgres w cats).
    unfold rastro. fold st0.
    destruct (sucesso_csv w cats || sucesso_excel w cats
              || sucesso_postgres w cats);
      unfold log, emit, ret, bind;
      cbn [fst snd eventos prefixa acrescenta app todas_categorias];
      now rewrite <- !app_assoc.
Qed.


Lemma extracao_sem_escrita c tr :
  Forall (evento_de_extracao c) tr -> existsb escrita tr = false.
Proof.
  induction 1 as [|ev tr Hev _ IH]; [reflexivity|].
  cbn [existsb]. rewrite IH.
  destruct ev; try reflexivity; destruct Hev.
Qed.

Lemma extrair_sem_escrita w :
  existsb escrita (rastro (extrair_categorias_via_api w estado_inicial))
    = false.
Proof.
  apply (extracao_sem_escrita (c := cookies_de w)).
  destruct (extrair_emite w estado_inicial) as (evs & He & HP).
  unfold rastro. now rewrite He.
Qed.



(** X17.  When the extraction gave no row, [main] writes nothing: after the
    trace of the extraction it logs one error line and returns [False],
    and no sink is called. *)
Theorem main_writes_nothing_when_empty w :
  categorias_extraidas w = [] ->
  valor (main w estado_inicial) = Ok false /\
  rastro (main w estado_inicial) =
    Log Iniciando ::
    rastro (extrair_categorias_via_api w estado_inicial) ++
    [Log NenhumaExtraida] /\
  existsb escrita (rastro (main w estado_inicial)) = false.
Proof.
  intros He.
  assert (Hr : rastro (main w estado_inicial) =
               Log Iniciando ::
               rastro (extrair_categorias_via_api w estado_inicial) ++
               [Log NenhumaExtraida]).
  { rewrite main_rastro. unfold cauda_main. now rewrite He. }
  repeat split.
  - rewrite main_valor, He. reflexivity.
  - exact Hr.
  - rewrite Hr. cbn [existsb escrita orb].
    rewrite existsb_app, extrair_sem_escrita. reflexivity.
Qed.

Lemma main_writes_nothing_when_empty_witness :
  valor (main Exemplos.sem_rede estado_inicial) = Ok false /\
  existsb escrita (rastro (main Exemplos.sem_rede estado_inicial)) = false.
Proof.
  destruct (main_writes_nothing_when_empty Exemplos.sem_rede)
    as (H1 & _ & H3).
  - reflexivity.
  - now split.
Defined.

Lemma writer_success_conditions_witness :
  fst (salvar_excel Exemplos.tres_paginas (registros_de [Exemplos.casa])
                    excel_padrao estado_inicial) = Ok true.
Proof.
  apply (proj1 (proj2 (writer_success_conditions Exemplos.tres_paginas
                         (registros_de [Exemplos.casa]) excel_padrao
                         tabela_padrao if_exists_padrao estado_inicial))).
  split; [discriminate | reflexivity].
Defined.


(** ** The session bootstrap never blocks the run *)

(** X18.  [obter_cookie_sessao] raises nothing and leaves the rows alone;
    it returns the cookies of the landing page when that answers 200 and no
    cookie otherwise (another status, or an exception); and whatever it
    returns, the run goes on to request page 1 with it. *)
Theorem bootstrap_never_blocks w :
  (forall st, exists st',
     obter_cookie_sessao w st = (Ok (cookies_de w), st') /\
     todas_categorias st' = todas_categorias st) /\
  (forall c, sessao_get w = Ok (200, c) -> cookies_de w = c) /\
  ((forall c, sessao_get w <> Ok (200, c)) -> cookies_de w = []) /\
  In (GetApi (cookies_de w) 1 tamanho_pagina)
     (rastro (extrair_categorias_via_api w estado_inicial)).
Proof.
  repeat split.
  - intros st. rewrite obter_cookie_sessao_run. eexists. split; reflexivity.
  - intros c H. unfold cookies_de. now rewrite H.
  - intros H. unfold cookies_de.
    destruct (sessao_get w) as [[s c]|e]; [|reflexivity].
    destruct (Z.eqb_spec s 200) as [-> | _]; [|reflexivity].
    now elim (H c).
  - destruct (extrair_pedidos_geral w) as (ps & n & resto & Hp & _).
    assert (H1 : In 1 (paginas_pedidas
                         (rastro (extrair_categorias_via_api
                                    w estado_inicial))))
      by (rewrite Hp; now left).
    unfold paginas_pedidas in H1. apply in_flat_map in H1.
    destruct H1 as (ev & Hev & Hin).
    destruct (extrair_emite w estado_inicial) as (evs & He & HP).
    assert (HF : Forall (evento_de_extracao (cookies_de w))
                   (rastro (extrair_categorias_via_api w estado_inicial)))
      by (unfold rastro; now rewrite He).
    rewrite Forall_forall in HF. specialize (HF ev Hev).
    destruct ev; try (now destruct Hin).
    cbn in Hin, HF. destruct Hin as [<- | []]. destruct HF as [-> ->].
    exact Hev.
Qed.

Lemma bootstrap_never_blocks_witness :
  cookies_de Exemplos.tres_paginas = [("SPC_F", "x")] /\
  In (GetApi [("SPC_F", "x")] 1 100)
     (rastro (extrair_categorias_via_api Exemplos.tres_paginas
                                         estado_inicial)).
Proof.
  destruct (bootstrap_never_blocks Exemplos.tres_paginas)
    as (_ & H2 & _ & H4).
  split; [apply H2; reflexivity|].
  exact H4.
Defined.
